(** * Open Library search client: a shallow embedding of
      [lib/open_library_api.py] and the properties of its operations.

    Conventions of the model.
    - A Python [str] is a [string], one [ascii] per character (code points
      below 256); [lower], [strip] and [isspace] follow CPython on that range.
    - [bytes] is [list byte].
    - A value decoded from JSON is a [json]; a Python [dict] keeps its items
      in insertion order, and [dict_get] returns the binding of a key.
    - Standard output, standard error and the HTTP requests already sent
      form the [world] that every operation threads; an operation returns a
      value or raises.
    - The [requests] library and the interpreter are the environment: what
      the network answers, what [Response.json] does with a body (a value, or
      an exception of any class) and the stream on which [input] shows its
      prompt are variables of the section [Client]. *)

From Stdlib Require Import ZArith List Bool Lia.
From Stdlib.Strings Require Import Ascii String Byte.
From Stdlib Require Import DecimalString Floats.
From Stdlib Require DecimalPos.
Import ListNotations.

Open Scope string_scope.
Open Scope Z_scope.

(** ** Python strings *)

Module PyStr.

(** [str(n)] for an [int]. *)
Definition str_of_int (n : Z) : string :=
  NilZero.string_of_int (Z.to_int n).

(** [s.replace(old, new)] where [old] is a single character. *)
Fixpoint replace (old : ascii) (new : string) (s : string) : string :=
  match s with
  | EmptyString => EmptyString
  | String c rest =>
      if Ascii.eqb c old then new ++ replace old new rest
      else String c (replace old new rest)
  end.

(** [sep.join(items)]. *)
Definition join (sep : string) (items : list string) : string :=
  String.concat sep items.

(** [c.lower()] on one character: A-Z, and the Latin-1 capitals
    U+00C0..U+00DE except the multiplication sign U+00D7. *)
Definition lower_char (c : ascii) : ascii :=
  let n := N_of_ascii c in
  if ((65 <=? n) && (n <=? 90))%N then ascii_of_N (n + 32)
  else if ((192 <=? n) && (n <=? 222) && negb (n =? 215))%N
       then ascii_of_N (n + 32)
  else c.

(** [s.lower()]. *)
Fixpoint lower (s : string) : string :=
  match s with
  | EmptyString => EmptyString
  | String c rest => String (lower_char c) (lower rest)
  end.

(** [c.isspace()]: TAB..CR, FS..US, SPACE, NEL and NBSP. *)
Definition isspace (c : ascii) : bool :=
  let n := N_of_ascii c in
  (((9 <=? n) && (n <=? 13)) || ((28 <=? n) && (n <=? 32))
   || (n =? 133) || (n =? 160))%N.

(** [s.lstrip()]. *)
Fixpoint lstrip (s : string) : string :=
  match s with
  | EmptyString => EmptyString
  | String c rest => if isspace c then lstrip rest else s
  end.

(** [s.rstrip()]. *)
Fixpoint rstrip (s : string) : string :=
  match s with
  | EmptyString => EmptyString
  | String c rest =>
      match rstrip rest with
      | EmptyString => if isspace c then EmptyString else String c EmptyString
      | kept => String c kept
      end
  end.

(** [s.strip()]. *)
Definition strip (s : string) : string := rstrip (lstrip s).

(** Truth value of a [str]: non-empty. *)
Definition truthy (s : string) : bool :=
  match s with EmptyString => false | _ => true end.

(** Every character of [s] is white space. *)
Fixpoint all_space (s : string) : bool :=
  match s with
  | EmptyString => true
  | String c rest => isspace c && all_space rest
  end.

End PyStr.

(** ** Values decoded from JSON *)

#[warnings="-register-all"] Inductive json : Type :=
| JNull
| JBool (b : bool)
| JInt (n : Z)
| JFloat (x : float)
| JStr (s : string)
| JList (items : list json)
| JDict (items : list (string * json)).

(** Truth value of a decoded value, as [not v] tests it. *)
Definition json_truthy (v : json) : bool :=
  match v with
  | JNull => false
  | JBool b => b
  | JInt n => negb (n =? 0)
  | JFloat x => negb (PrimFloat.eqb x PrimFloat.zero)
  | JStr s => PyStr.truthy s
  | JList items => match items with [] => false | _ => true end
  | JDict items => match items with [] => false | _ => true end
  end.

(** [type(v).__name__]. *)
Definition type_name (v : json) : string :=
  match v with
  | JNull => "NoneType"
  | JBool _ => "bool"
  | JInt _ => "int"
  | JFloat _ => "float"
  | JStr _ => "str"
  | JList _ => "list"
  | JDict _ => "dict"
  end.

(** Lookup of a key among the items of a [dict]. *)
Fixpoint dict_get (items : list (string * json)) (key : string) : option json :=
  match items with
  | [] => None
  | (k, v) :: rest => if String.eqb k key then Some v else dict_get rest key
  end.


(** ** Exceptions, the world and the monad of operations *)

(** The classes under [requests.exceptions.RequestException] that matter
    here.  [JSONDecodeError] is [requests.exceptions.JSONDecodeError], the
    error [Response.json] raises on a malformed body; it derives from
    [InvalidJSONError], itself a [RequestException]. *)
Inductive request_error : Type :=
| ConnectionError
| Timeout
| HTTPError
| JSONDecodeError
| OtherRequestError.

(** A raised exception with the text [str(e)] gives. *)
Inductive exn : Type :=
| RequestException (kind : request_error) (msg : string)
| AttributeError (msg : string)
| TypeError (msg : string)
| KeyError (msg : string)
| IndexError (msg : string)
| EOFError (msg : string)
| RecursionError (msg : string)
| ValueError (msg : string).

(** [str(e)]. *)
Definition exn_str (e : exn) : string :=
  match e with
  | RequestException _ msg => msg
  | AttributeError msg => msg
  | TypeError msg => msg
  | KeyError msg => msg
  | IndexError msg => msg
  | EOFError msg => msg
  | RecursionError msg => msg
  | ValueError msg => msg
  end.

(** [isinstance(e, requests.exceptions.RequestException)]. *)
Definition is_RequestException (e : exn) : bool :=
  match e with RequestException _ _ => true | _ => false end.

(** [isinstance(e, Exception)]: every class above derives from it. *)
Definition is_Exception (e : exn) : bool := true.

(** What is written to standard output and to standard error, chunk by
    chunk, and the URLs handed to [session.get], oldest first. *)
Record world : Type := mkWorld {
  stdout : list string;
  stderr : list string;
  requested : list string
}.

(** The two output streams of the process. *)
Inductive stream : Type := Stdout | Stderr.

Inductive result (A : Type) : Type :=
| Return (a : A)
| Raise (e : exn).
Arguments Return {A} a.
Arguments Raise {A} e.

Definition M (A : Type) : Type := world -> result A * world.

Definition ret {A} (a : A) : M A := fun w => (Return a, w).

Definition raise {A} (e : exn) : M A := fun w => (Raise e, w).

Definition bind {A B} (c : M A) (k : A -> M B) : M B :=
  fun w =>
    match c w with
    | (Return a, w') => k a w'
    | (Raise e, w') => (Raise e, w')
    end.

(** [try: body  except <class> as e: handler e]. *)
Definition try_except {A} (body : M A) (catches : exn -> bool)
    (handler : exn -> M A) : M A :=
  fun w =>
    match body w with
    | (Return a, w') => (Return a, w')
    | (Raise e, w') => if catches e then handler e w' else (Raise e, w')
    end.

Declare Scope py_scope.
Delimit Scope py_scope with py.
Notation "x <- c ;; k" := (bind c (fun x => k))
  (at level 61, c at next level, right associativity) : py_scope.
Notation "c ;; k" := (bind c (fun _ => k))
  (at level 61, right associativity) : py_scope.
Open Scope py_scope.

Definition LF : string := String (ascii_of_nat 10) "".

(** [sys.stdout.write(s)]. *)
Definition write (s : string) : M unit :=
  fun w => (Return tt, mkWorld (stdout w ++ [s]) (stderr w) (requested w)).

(** [sys.stderr.write(s)]. *)
Definition write_err (s : string) : M unit :=
  fun w => (Return tt, mkWorld (stdout w) (stderr w ++ [s]) (requested w)).

(** [print(s)]. *)
Definition print (s : string) : M unit := write (s ++ LF).

(** ** Subscripts and [dict.get] on decoded values *)

Definition not_subscriptable (v : json) : string :=
  "'" ++ type_name v ++ "' object is not subscriptable".

(** [v.get(key, default)]: only a [dict] has the method. *)
Definition py_get (v : json) (key : string) (default : json) : M json :=
  match v with
  | JDict items =>
      ret (match dict_get items key with Some x => x | None => default end)
  | _ => raise (AttributeError
                  ("'" ++ type_name v ++ "' object has no attribute 'get'"))
  end.

(** [v[key]] for a [str] key. *)
Definition getitem_key (v : json) (key : string) : M json :=
  match v with
  | JDict items =>
      match dict_get items key with
      | Some x => ret x
      | None => raise (KeyError ("'" ++ key ++ "'"))
      end
  | JList _ => raise (TypeError "list indices must be integers or slices, not str")
  | JStr _ => raise (TypeError "string indices must be integers, not 'str'")
  | _ => raise (TypeError (not_subscriptable v))
  end.

(** [v[0]]. A [dict] decoded from JSON has [str] keys only, so the key [0]
    is never found. *)
Definition getitem_0 (v : json) : M json :=
  match v with
  | JList (first :: _) => ret first
  | JList [] => raise (IndexError "list index out of range")
  | JStr (String c _) => ret (JStr (String c ""))
  | JStr EmptyString => raise (IndexError "string index out of range")
  | JDict _ => raise (KeyError "0")
  | _ => raise (TypeError (not_subscriptable v))
  end.

(** ** The HTTP response of [requests] *)

Record Response : Type := mkResponse {
  status_code : Z;
  reason : string;
  url : string;
  content : list byte
}.

(** [response.raise_for_status()]: [HTTPError] on 4xx and 5xx. *)
Definition raise_for_status (r : Response) : M unit :=
  if (400 <=? status_code r) && (status_code r <? 500) then
    raise (RequestException HTTPError
             (PyStr.str_of_int (status_code r) ++ " Client Error: "
              ++ reason r ++ " for url: " ++ url r))
  else if (500 <=? status_code r) && (status_code r <? 600) then
    raise (RequestException HTTPError
             (PyStr.str_of_int (status_code r) ++ " Server Error: "
              ++ reason r ++ " for url: " ++ url r))
  else ret tt.

(** ** class Search *)

Definition BASE_URL : string := "https://openlibrary.org/search.json".
Definition DEFAULT_FIELDS : list string := ["title"; "author_name"].
Definition DEFAULT_LIMIT : Z := 1.

(** [fields or self.DEFAULT_FIELDS]: [None] and the empty list are falsy. *)
Definition fields_or (fields : option (list string)) (default : list string)
    : list string :=
  match fields with
  | Some (f :: rest) => f :: rest
  | _ => default
  end.

(** [limit or self.DEFAULT_LIMIT]: [None] and [0] are falsy. *)
Definition limit_or (limit : option Z) (default : Z) : Z :=
  match limit with
  | Some n => if n =? 0 then default else n
  | None => default
  end.

Definition _build_url (search_term : string) (fields : option (list string))
    (limit : option Z) : string :=
  let search_term_formatted := PyStr.replace " " "+" search_term in
  let fields := fields_or fields DEFAULT_FIELDS in
  let limit := limit_or limit DEFAULT_LIMIT in
  let fields_formatted := PyStr.join "," fields in
  BASE_URL ++ "?title=" ++ search_term_formatted
           ++ "&fields=" ++ fields_formatted
           ++ "&limit=" ++ PyStr.str_of_int limit.


Section Client.

(** What [session.get(url)] does, given the URLs requested before: it
    raises a [RequestException] of some kind with some text, or it hands
    back a response. *)
Variable session_get :
  list string -> string -> (request_error * string) + Response.

(** What [response.json()] does with a body: it returns the decoded value
    or raises.  A body that is not JSON text makes it raise
    [requests.exceptions.JSONDecodeError], a [RequestException]; it lets
    through what the decoder raises besides, such as [RecursionError] on a
    body nested too deep and [ValueError] on an integer literal with too
    many digits. *)
Variable json_loads : list byte -> exn + json.

(** [str(v)] for a [float], a [list] or a [dict]. *)
Variable repr_other : json -> string.

(** The stream on which [input(prompt)] shows the prompt: standard output
    when standard input or output is not a terminal, standard error when
    the line is read from a terminal. *)
Variable prompt_stream : stream.

(** [self.session.get(url)]. *)
Definition session_get_M (u : string) : M Response :=
  fun w =>
    let w' := mkWorld (stdout w) (stderr w) (requested w ++ [u]) in
    match session_get (requested w) u with
    | inl (kind, msg) => (Raise (RequestException kind msg), w')
    | inr r => (Return r, w')
    end.

(** [response.json()]. *)
Definition response_json (r : Response) : M json :=
  match json_loads (content r) with
  | inl e => raise e
  | inr v => ret v
  end.

(** What an f-string field [{v}] expands to. *)
Definition py_str (v : json) : string :=
  match v with
  | JStr s => s
  | JNull => "None"
  | JBool true => "True"
  | JBool false => "False"
  | JInt n => PyStr.str_of_int n
  | _ => repr_other v
  end.

Definition get_search_results (search_term : string) : M (list byte) :=
  try_except
    (let url := _build_url search_term None None in
     response <- session_get_M url ;;
     raise_for_status response ;;
     ret (content response))
    is_RequestException
    (fun e =>
       print ("Error making request: " ++ exn_str e) ;;
       ret []).

Definition get_search_results_json (search_term : string)
    (fields : option (list string)) (limit : option Z) : M json :=
  try_except
    (let url := _build_url search_term fields limit in
     print ("Request URL: " ++ url) ;;
     response <- session_get_M url ;;
     raise_for_status response ;;
     response_json response)
    is_RequestException
    (fun e =>
       print ("Error making request: " ++ exn_str e) ;;
       ret (JDict [])).

(** The [try] block of [get_user_search_results]. *)
Definition user_search_try (search_term : string) : M string :=
  response <- get_search_results_json search_term None None ;;
  docs <- py_get response "docs" JNull ;;
  if negb (json_truthy docs) then ret "No results found."
  else
    docs <- getitem_key response "docs" ;;
    book <- getitem_0 docs ;;
    title <- py_get book "title" (JStr "Unknown Title") ;;
    authors <- py_get book "author_name" (JList [JStr "Unknown Author"]) ;;
    author <- getitem_0 authors ;;
    ret ("Title: " ++ py_str title ++ LF ++ "Author: " ++ py_str author).

Definition PROCESSING_ERROR : string :=
  "An error occurred while processing your request.".

Definition get_user_search_results (search_term : string) : M string :=
  try_except
    (user_search_try search_term)
    is_Exception
    (fun e =>
       print ("Error processing results: " ++ exn_str e) ;;
       ret PROCESSING_ERROR).

(** ** The interactive loop *)

Inductive loop_ctl : Type := Break | Continue.

Definition PROMPT : string := LF ++ "Enter a book title (or 'quit' to exit): ".

(** One turn of the [while True] body, after [input] has returned the line. *)
Definition loop_body (search_term : string) : M loop_ctl :=
  if String.eqb (PyStr.lower search_term) "quit" then ret Break
  else if negb (PyStr.truthy (PyStr.strip search_term)) then
    print "Please enter a valid book title." ;;
    ret Continue
  else
    result <- get_user_search_results search_term ;;
    print (LF ++ "Search Result:") ;;
    print result ;;
    ret Continue.

(** The prompt of [input(prompt)], on the stream of the prompt. *)
Definition show_prompt (prompt : string) : M unit :=
  match prompt_stream with
  | Stdout => write prompt
  | Stderr => write_err prompt
  end.

(** The loop over the lines standard input still holds; [input] shows the
    prompt, and raises [EOFError] when no line is left. *)
Fixpoint main_loop (stdin : list string) : M unit :=
  match stdin with
  | [] =>
      show_prompt PROMPT ;;
      raise (EOFError "EOF when reading a line")
  | search_term :: rest =>
      show_prompt PROMPT ;;
      ctl <- loop_body search_term ;;
      match ctl with
      | Break => ret tt
      | Continue => main_loop rest
      end
  end.

Definition main (stdin : list string) : M unit :=
  print "Open Library Book Search" ;;
  print "-----------------------" ;;
  main_loop stdin.

(** ** Vocabulary of the statements *)

(** The transport fails for [u]: [session.get] raises, or the status makes
    [raise_for_status] raise. *)
Definition transport_fails (w : world) (u : string) : Prop :=
  match session_get (requested w) u with
  | inl _ => True
  | inr r => 400 <= status_code r < 600
  end.

(** The character the URL carries for a character of the title. *)
Definition plus_for_space (c : ascii) : ascii :=
  if Ascii.eqb c " " then "+"%char else c.

(** The line spells quit in any mix of upper and lower case. *)
Definition spells_quit (line : string) : Prop :=
  exists c1 c2 c3 c4,
    line = String c1 (String c2 (String c3 (String c4 "")))
    /\ (c1 = "q" \/ c1 = "Q")%char /\ (c2 = "u" \/ c2 = "U")%char
    /\ (c3 = "i" \/ c3 = "I")%char /\ (c4 = "t" \/ c4 = "T")%char.

(** The world after one more chunk on standard output. *)
Definition wrote (w : world) (chunk : string) : world :=
  mkWorld (stdout w ++ [chunk]) (stderr w) (requested w).

(** The world after [input] has shown the prompt of the loop. *)
Definition prompted (w : world) : world :=
  match prompt_stream with
  | Stdout => mkWorld (stdout w ++ [PROMPT]) (stderr w) (requested w)
  | Stderr => mkWorld (stdout w) (stderr w ++ [PROMPT]) (requested w)
  end.

(** The value of a decimal digit. *)
Definition digit_value (c : ascii) : option Z :=
  let n := N_of_ascii c in
  if ((48 <=? n) && (n <=? 57))%N then Some (Z.of_N n - 48) else None.

(** The number a run of decimal digits denotes, after the digits that
    gave [acc]. *)
Fixpoint digits_value (acc : Z) (s : string) : option Z :=
  match s with
  | EmptyString => Some acc
  | String c rest =>
      match digit_value c with
      | Some d => digits_value (10 * acc + d) rest
      | None => None
      end
  end.

(** The integer a decimal numeral denotes: digits, with a minus sign
    before them for a negative number. *)
Definition decimal_value (s : string) : option Z :=
  match s with
  | EmptyString => None
  | String c rest =>
      if Ascii.eqb c "-" then
        match rest with
        | EmptyString => None
        | _ => option_map Z.opp (digits_value 0 rest)
        end
      else digits_value 0 s
  end.

(** The numeral has no leading zero and is not a signed zero: it is 0, or
    it starts, after the sign if any, with a digit from 1 to 9. *)
Definition canonical_decimal (s : string) : bool :=
  let nonzero_digit c := ((49 <=? N_of_ascii c) && (N_of_ascii c <=? 57))%N in
  match s with
  | EmptyString => false
  | String c rest =>
      if Ascii.eqb c "-" then
        match rest with
        | EmptyString => false
        | String d _ => nonzero_digit d
        end
      else if Ascii.eqb c "0" then
        match rest with EmptyString => true | _ => false end
      else nonzero_digit c
  end.

(** What [get_search_results_json] leaves behind when it degrades: the
    URL line and the error line on standard output, one more request. *)
Definition degraded (w : world) (u msg : string) : world :=
  mkWorld (stdout w ++ ["Request URL: " ++ u ++ LF;
                        "Error making request: " ++ msg ++ LF])
          (stderr w) (requested w ++ [u]).

(** The same for [get_search_results], which prints no URL line. *)
Definition degraded_raw (w : world) (u msg : string) : world :=
  mkWorld (stdout w ++ ["Error making request: " ++ msg ++ LF])
          (stderr w) (requested w ++ [u]).

(** The world after a request for [u] that printed the URL line. *)
Definition fetched (w : world) (u : string) : world :=
  mkWorld (stdout w ++ ["Request URL: " ++ u ++ LF]) (stderr w)
          (requested w ++ [u]).

(** The loop's test for leaving: [search_term.lower() == 'quit']. *)
Definition is_quit_line (line : string) : bool :=
  String.eqb (PyStr.lower line) "quit".

(** The lines the loop reads and acts on: those before the first line
    that passes the quit test. *)
Fixpoint consumed (stdin : list string) : list string :=
  match stdin with
  | [] => []
  | line :: rest => if is_quit_line line then [] else line :: consumed rest
  end.

(** The URLs of the searches for a run of lines: one for each line that is
    not blank, in order. *)
Definition searched (lines : list string) : list string :=
  map (fun line => _build_url line None None)
      (filter (fun line => negb (PyStr.all_space line)) lines).

(** The character [c] occurs in [s]. *)
Fixpoint has_char (c : ascii) (s : string) : bool :=
  match s with
  | EmptyString => false
  | String d rest => Ascii.eqb d c || has_char c rest
  end.

(** A computation that leaves the world alone and, when it returns,
    returns a value that satisfies [P]. *)
Definition returns_only {A} (P : A -> Prop) (c : M A) : Prop :=
  forall w, exists r,
    c w = (r, w) /\ match r with Return a => P a | Raise _ => True end.

(** The three shapes of a display string. *)
Definition display_shape (s : string) : Prop :=
  s = "No results found."
  \/ s = "An error occurred while processing your request."
  \/ exists t a, s = "Title: " ++ t ++ LF ++ "Author: " ++ a.

(** ** Concrete environments *)

Definition world0 : world := mkWorld [] [] [].

Definition dune_url : string :=
  "https://openlibrary.org/search.json?title=dune&fields=title,author_name&limit=1".

(** A network that refuses every connection. *)
Definition net_down (_ : list string) (_ : string)
    : (request_error * string) + Response :=
  inl (ConnectionError, "Connection refused").

(** A network that answers every request with the same response. *)
Definition net_const (r : Response) (_ : list string) (_ : string)
    : (request_error * string) + Response :=
  inr r.

Definition ok_response : Response := mkResponse 200 "OK" "" [].
Definition not_found_response : Response := mkResponse 404 "Not Found" "" [].

(** A decoder that yields [v] for every body. *)
Definition loads_const (v : json) (_ : list byte) : exn + json := inr v.

(** A decoder that rejects every body as not being JSON text. *)
Definition loads_reject (_ : list byte) : exn + json :=
  inl (RequestException JSONDecodeError
         "Expecting value: line 1 column 1 (char 0)").

(** A body of 100000 opening brackets and nothing else. *)
Definition deep_body : list byte :=
  N.iter 100000 (cons "["%byte) [].

Definition deep_response : Response := mkResponse 200 "OK" "" deep_body.

(** The number of opening brackets a body starts with. *)
Fixpoint leading_brackets (body : list byte) : N :=
  match body with
  | "["%byte :: rest => N.succ (leading_brackets rest)
  | _ => 0%N
  end.

(** A decoder for bodies that are not JSON text: it reports them as
    malformed, unless the arrays they open are nested 100000 deep or more,
    where the decoder runs out of stack and [RecursionError] comes out. *)
Definition loads_unterminated (body : list byte) : exn + json :=
  if (100000 <=? leading_brackets body)%N then
    inl (RecursionError "maximum recursion depth exceeded")
  else
    inl (RequestException JSONDecodeError
           "Expecting value: line 1 column 2 (char 1)").

Definition repr_none (_ : json) : string := "".

Definition dune_reply : json :=
  JDict [("docs",
          JList [JDict [("title", JStr "Dune");
                        ("author_name",
                         JList [JStr "Frank Herbert"; JStr "Other"])]])].

Definition no_author_list_reply : json :=
  JDict [("docs",
          JList [JDict [("title", JStr "Dune"); ("author_name", JList [])]])].

Definition not_modified_response : Response :=
  mkResponse 304 "Not Modified" "" [x44; x75; x6e; x65]%byte.

Definition null_docs_reply : json := JDict [("docs", JNull)].

Definition number_docs_reply : json := JDict [("docs", JInt 5)].

Definition string_author_reply : json :=
  JDict [("docs",
          JList [JDict [("title", JStr "Dune");
                        ("author_name", JStr "Frank Herbert")]])].

Definition null_author_reply : json :=
  JDict [("docs",
          JList [JDict [("title", JStr "Dune"); ("author_name", JNull)]])].

(** ** Proof automation *)

Ltac unfold_monad :=
  unfold try_except, bind, ret, raise, print, write in *.

(** ** Strings: replacement, case and white space *)

Lemma replace_space_length (s : string) :
  String.length (PyStr.replace " " "+" s) = String.length s.
Proof.
  induction s as [|c rest IH]; simpl; [reflexivity|].
  destruct (Ascii.eqb c " "); simpl; now rewrite IH.
Qed.

Lemma replace_space_get (s : string) (i : nat) :
  String.get i (PyStr.replace " " "+" s)
  = option_map plus_for_space (String.get i s).
Proof.
  revert i; induction s as [|c rest IH]; intros i; simpl; [reflexivity|].
  unfold plus_for_space at 1.
  destruct (Ascii.eqb c " ") eqn:E; destruct i; simpl;
    try (rewrite IH; reflexivity).
  - unfold plus_for_space; now rewrite E.
  - unfold plus_for_space; now rewrite E.
Qed.

Lemma lower_char_q (c : ascii) :
  PyStr.lower_char c = "q"%char <-> (c = "q" \/ c = "Q")%char.
Proof.
  split.
  - destruct c as [[] [] [] [] [] [] [] []]; vm_compute; intro H;
      solve [discriminate H | auto].
  - intros [-> | ->]; reflexivity.
Qed.

Lemma lower_char_u (c : ascii) :
  PyStr.lower_char c = "u"%char <-> (c = "u" \/ c = "U")%char.
Proof.
  split.
  - destruct c as [[] [] [] [] [] [] [] []]; vm_compute; intro H;
      solve [discriminate H | auto].
  - intros [-> | ->]; reflexivity.
Qed.

Lemma lower_char_i (c : ascii) :
  PyStr.lower_char c = "i"%char <-> (c = "i" \/ c = "I")%char.
Proof.
  split.
  - destruct c as [[] [] [] [] [] [] [] []]; vm_compute; intro H;
      solve [discriminate H | auto].
  - intros [-> | ->]; reflexivity.
Qed.

Lemma lower_char_t (c : ascii) :
  PyStr.lower_char c = "t"%char <-> (c = "t" \/ c = "T")%char.
Proof.
  split.
  - destruct c as [[] [] [] [] [] [] [] []]; vm_compute; intro H;
      solve [discriminate H | auto].
  - intros [-> | ->]; reflexivity.
Qed.

Lemma lower_is_quit (line : string) :
  PyStr.lower line = "quit" <-> spells_quit line.
Proof.
  split.
  - intro H.
    destruct line as [|c1 [|c2 [|c3 [|c4 [|c5 rest]]]]]; simpl in H;
      try discriminate H.
    injection H as H1 H2 H3 H4.
    exists c1, c2, c3, c4.
    rewrite <- lower_char_q, <- lower_char_u, <- lower_char_i, <- lower_char_t.
    auto.
  - intros (c1 & c2 & c3 & c4 & -> & H1 & H2 & H3 & H4).
    apply lower_char_q in H1. apply lower_char_u in H2.
    apply lower_char_i in H3. apply lower_char_t in H4.
    simpl. now rewrite H1, H2, H3, H4.
Qed.

Lemma lstrip_all_space (s : string) :
  PyStr.all_space s = true -> PyStr.lstrip s = "".
Proof.
  induction s as [|c rest IH]; simpl; [reflexivity|].
  intro H. apply andb_true_iff in H as [Hc Hrest].
  rewrite Hc. now apply IH.
Qed.

Lemma rstrip_empty (s : string) :
  PyStr.rstrip s = "" -> PyStr.all_space s = true.
Proof.
  induction s as [|c rest IH]; simpl; [reflexivity|].
  destruct (PyStr.rstrip rest) eqn:E.
  - destruct (PyStr.isspace c); [intros _ | discriminate].
    now rewrite IH.
  - discriminate.
Qed.

Lemma lstrip_head (s : string) :
  match PyStr.lstrip s with
  | EmptyString => PyStr.all_space s = true
  | String c _ => PyStr.isspace c = false
  end.
Proof.
  induction s as [|c rest IH]; simpl; [reflexivity|].
  destruct (PyStr.isspace c) eqn:E; simpl; [exact IH | exact E].
Qed.

Lemma strip_empty_iff (s : string) :
  PyStr.truthy (PyStr.strip s) = false <-> PyStr.all_space s = true.
Proof.
  unfold PyStr.strip. split.
  - intro H.
    assert (Hr : PyStr.rstrip (PyStr.lstrip s) = "")
      by (destruct (PyStr.rstrip (PyStr.lstrip s)); [reflexivity | discriminate H]).
    apply rstrip_empty in Hr.
    pose proof (lstrip_head s) as Hl.
    destruct (PyStr.lstrip s) as [|c rest]; [exact Hl|].
    simpl in Hr. rewrite Hl in Hr. discriminate Hr.
  - intro H. now rewrite (lstrip_all_space s H).
Qed.

Lemma spells_quit_not_blank (line : string) :
  spells_quit line -> PyStr.all_space line = false.
Proof.
  intros (c1 & c2 & c3 & c4 & -> & [-> | ->] & _); reflexivity.
Qed.

(** ** The query URL *)

Example build_url_hobbit :
  _build_url "the hobbit" None None
  = "https://openlibrary.org/search.json?title=the+hobbit&fields=title,author_name&limit=1".
Proof. reflexivity. Qed.

Example build_url_unescaped :
  _build_url "a&b?c/d" (Some ["key"; "title"]) (Some 25)
  = "https://openlibrary.org/search.json?title=a&b?c/d&fields=key,title&limit=25".
Proof. reflexivity. Qed.

Example build_url_negative_limit :
  _build_url "dune" (Some ["key"]) (Some (-3))
  = "https://openlibrary.org/search.json?title=dune&fields=key&limit=-3".
Proof. reflexivity. Qed.

Lemma digits_value_step (c : ascii) (rest : string) (acc d : Z) :
  digit_value c = Some d ->
  digits_value acc (String c rest) = digits_value (10 * acc + d) rest.
Proof. intro H. simpl. now rewrite H. Qed.

Lemma digits_value_acc (d : Decimal.uint) (acc : positive) :
  digits_value (Zpos acc) (NilEmpty.string_of_uint d)
  = Some (Zpos (Pos.of_uint_acc d acc)).
Proof.
  revert acc.
  induction d as [|d IH|d IH|d IH|d IH|d IH|d IH|d IH|d IH|d IH|d IH];
    intro acc; cbn [NilEmpty.string_of_uint Pos.of_uint_acc];
    [reflexivity
    | rewrite (digits_value_step "0" _ _ 0 eq_refl)
    | rewrite (digits_value_step "1" _ _ 1 eq_refl)
    | rewrite (digits_value_step "2" _ _ 2 eq_refl)
    | rewrite (digits_value_step "3" _ _ 3 eq_refl)
    | rewrite (digits_value_step "4" _ _ 4 eq_refl)
    | rewrite (digits_value_step "5" _ _ 5 eq_refl)
    | rewrite (digits_value_step "6" _ _ 6 eq_refl)
    | rewrite (digits_value_step "7" _ _ 7 eq_refl)
    | rewrite (digits_value_step "8" _ _ 8 eq_refl)
    | rewrite (digits_value_step "9" _ _ 9 eq_refl)];
    rewrite <- IH; f_equal; lia.
Qed.

Lemma digits_value_uint (d : Decimal.uint) :
  digits_value 0 (NilEmpty.string_of_uint d) = Some (Z.of_N (Pos.of_uint d)).
Proof.
  induction d as [|d IH|d IH|d IH|d IH|d IH|d IH|d IH|d IH|d IH|d IH];
    cbn [NilEmpty.string_of_uint Pos.of_uint];
    [reflexivity
    | rewrite (digits_value_step "0" _ _ 0 eq_refl)
    | rewrite (digits_value_step "1" _ _ 1 eq_refl)
    | rewrite (digits_value_step "2" _ _ 2 eq_refl)
    | rewrite (digits_value_step "3" _ _ 3 eq_refl)
    | rewrite (digits_value_step "4" _ _ 4 eq_refl)
    | rewrite (digits_value_step "5" _ _ 5 eq_refl)
    | rewrite (digits_value_step "6" _ _ 6 eq_refl)
    | rewrite (digits_value_step "7" _ _ 7 eq_refl)
    | rewrite (digits_value_step "8" _ _ 8 eq_refl)
    | rewrite (digits_value_step "9" _ _ 9 eq_refl)];
    [exact IH | ..];
    cbn [Z.of_N]; rewrite <- digits_value_acc; f_equal.
Qed.

Lemma uint_string_unsigned (d : Decimal.uint) :
  d <> Decimal.Nil ->
  decimal_value (NilEmpty.string_of_uint d)
  = digits_value 0 (NilEmpty.string_of_uint d).
Proof.
  destruct d; intro H; [contradiction | ..]; reflexivity.
Qed.

Lemma uint_string_nonempty (d : Decimal.uint) :
  d <> Decimal.Nil -> NilEmpty.string_of_uint d <> "".
Proof.
  destruct d; intro H; [contradiction | ..]; discriminate.
Qed.

Lemma unorm_head (d : Decimal.uint) :
  Decimal.unorm d = Decimal.zero
  \/ canonical_decimal (NilEmpty.string_of_uint (Decimal.unorm d)) = true
     /\ (exists c rest,
           NilEmpty.string_of_uint (Decimal.unorm d) = String c rest
           /\ Ascii.eqb c "-" = false /\ Ascii.eqb c "0" = false).
Proof.
  induction d; cbn [Decimal.unorm]; auto;
    right; (split; [reflexivity|]); eexists; eexists;
    (split; [reflexivity | split; reflexivity]).
Qed.

Lemma pos_uint_head (p : positive) :
  canonical_decimal (NilEmpty.string_of_uint (Pos.to_uint p)) = true
  /\ exists c rest,
       NilEmpty.string_of_uint (Pos.to_uint p) = String c rest
       /\ Ascii.eqb c "-" = false /\ Ascii.eqb c "0" = false.
Proof.
  pose proof (DecimalPos.Unsigned.to_of (Pos.to_uint p)) as Hnorm.
  rewrite DecimalPos.Unsigned.of_to in Hnorm. simpl in Hnorm.
  destruct (unorm_head (Pos.to_uint p)) as [Hzero | H].
  - rewrite <- Hnorm in Hzero.
    exfalso. exact (DecimalPos.Unsigned.to_uint_nonzero p Hzero).
  - rewrite <- Hnorm in H. exact H.
Qed.

Lemma str_of_int_pos (p : positive) :
  PyStr.str_of_int (Zpos p) = NilEmpty.string_of_uint (Pos.to_uint p).
Proof.
  unfold PyStr.str_of_int. simpl.
  pose proof (DecimalPos.Unsigned.to_uint_nonnil p) as H.
  unfold NilZero.string_of_uint.
  destruct (Pos.to_uint p); [contradiction | ..]; reflexivity.
Qed.

Lemma str_of_int_neg (p : positive) :
  PyStr.str_of_int (Zneg p)
  = String "-" (NilEmpty.string_of_uint (Pos.to_uint p)).
Proof.
  unfold PyStr.str_of_int. simpl.
  pose proof (DecimalPos.Unsigned.to_uint_nonnil p) as H.
  unfold NilZero.string_of_uint.
  destruct (Pos.to_uint p); [contradiction | ..]; reflexivity.
Qed.

(** The decimal text of an integer denotes that integer. *)
Lemma str_of_int_value (n : Z) : decimal_value (PyStr.str_of_int n) = Some n.
Proof.
  destruct n as [|p|p].
  - reflexivity.
  - rewrite str_of_int_pos.
    rewrite uint_string_unsigned by apply DecimalPos.Unsigned.to_uint_nonnil.
    rewrite digits_value_uint, DecimalPos.Unsigned.of_to. reflexivity.
  - rewrite str_of_int_neg. cbn [decimal_value]. simpl Ascii.eqb. cbv iota.
    pose proof (uint_string_nonempty _ (DecimalPos.Unsigned.to_uint_nonnil p))
      as Hne.
    destruct (NilEmpty.string_of_uint (Pos.to_uint p)) eqn:E;
      [contradiction|].
    rewrite <- E, digits_value_uint, DecimalPos.Unsigned.of_to. reflexivity.
Qed.

(** The decimal text of an integer has no leading zero. *)
Lemma str_of_int_canonical (n : Z) :
  canonical_decimal (PyStr.str_of_int n) = true.
Proof.
  destruct n as [|p|p].
  - reflexivity.
  - rewrite str_of_int_pos. apply pos_uint_head.
  - rewrite str_of_int_neg.
    destruct (pos_uint_head p) as (Hcanon & c & rest & E & Hminus & Hzero).
    rewrite E in *. cbn [canonical_decimal] in *. simpl Ascii.eqb at 1.
    cbv iota. rewrite Hminus, Hzero in Hcanon. exact Hcanon.
Qed.

(** C3. For an explicit, non-empty field list and a non-zero limit the URL
    is exactly the base address followed by [?title=<t>&fields=<f>&limit=<n>],
    where [<t>] has the length of the title and carries, position by
    position, the title's own character, except that a space becomes a plus
    sign; [<f>] is the fields joined by commas; and [<n>] is the decimal
    numeral of the limit: its digits denote the limit, with a minus sign
    for a negative one and no leading zero. *)
Theorem build_url_exact (title : string) (fields : list string) (limit : Z)
    (Hfields : fields <> []) (Hlimit : limit <> 0) :
  exists t n : string,
    _build_url title (Some fields) (Some limit)
    = "https://openlibrary.org/search.json?title=" ++ t
      ++ "&fields=" ++ String.concat "," fields
      ++ "&limit=" ++ n
    /\ String.length t = String.length title
    /\ (forall i,
          String.get i t = option_map plus_for_space (String.get i title))
    /\ decimal_value n = Some limit
    /\ canonical_decimal n = true.
Proof.
  exists (PyStr.replace " " "+" title), (PyStr.str_of_int limit).
  split; [|split; [|split; [|split]]].
  - unfold _build_url, fields_or, limit_or, BASE_URL, PyStr.join.
    destruct fields as [|f rest]; [contradiction|].
    apply Z.eqb_neq in Hlimit. rewrite Hlimit.
    reflexivity.
  - apply replace_space_length.
  - apply replace_space_get.
  - apply str_of_int_value.
  - apply str_of_int_canonical.
Qed.

(** C7. Without a fields argument the URL ends in
    [&fields=title,author_name&limit=<n>]; without a limit argument it ends
    in [&limit=1]. *)
Theorem build_url_defaults (title : string) :
  (forall limit, exists n,
      _build_url title None limit
      = "https://openlibrary.org/search.json?title="
        ++ PyStr.replace " " "+" title
        ++ "&fields=title,author_name&limit=" ++ n)
  /\ (forall fields, exists f,
      _build_url title fields None
      = "https://openlibrary.org/search.json?title="
        ++ PyStr.replace " " "+" title
        ++ "&fields=" ++ f ++ "&limit=1")
  /\ _build_url title None None
     = "https://openlibrary.org/search.json?title="
       ++ PyStr.replace " " "+" title
       ++ "&fields=title,author_name&limit=1".
Proof.
  split; [|split].
  - intro limit. exists (PyStr.str_of_int (limit_or limit DEFAULT_LIMIT)).
    unfold _build_url, BASE_URL.
    reflexivity.
  - intro fields. exists (PyStr.join "," (fields_or fields DEFAULT_FIELDS)).
    unfold _build_url, BASE_URL.
    reflexivity.
  - unfold _build_url, BASE_URL. cbv zeta.
    reflexivity.
Qed.

(** C10. An empty field list gives the URL that no field list gives, and
    the limit 0 gives the URL that no limit gives: both are replaced by the
    defaults, whatever the title and the other argument. *)
Theorem build_url_falsy_arguments (title : string) :
  (forall limit, _build_url title (Some []) limit = _build_url title None limit)
  /\ (forall fields,
        _build_url title fields (Some 0) = _build_url title fields None)
  /\ _build_url title (Some []) (Some 0)
     = "https://openlibrary.org/search.json?title="
       ++ PyStr.replace " " "+" title
       ++ "&fields=title,author_name&limit=1".
Proof.
  split; [|split].
  - reflexivity.
  - reflexivity.
  - unfold _build_url, BASE_URL. cbv zeta.
    reflexivity.
Qed.

(** ** The fetch operations *)

(** The arithmetic of [raise_for_status]. *)
Lemma status_raises_at (r : Response) (w : world) :
  400 <= status_code r < 600 ->
  exists msg, raise_for_status r w = (Raise (RequestException HTTPError msg), w).
Proof.
  intro H. unfold raise_for_status.
  destruct ((400 <=? status_code r) && (status_code r <? 500)) eqn:E1.
  - eexists. reflexivity.
  - assert (E2 : (500 <=? status_code r) && (status_code r <? 600) = true).
    { apply andb_false_iff in E1. apply andb_true_iff.
      rewrite Z.leb_le, Z.ltb_lt. rewrite Z.leb_gt, Z.ltb_ge in E1. lia. }
    rewrite E2. eexists. reflexivity.
Qed.

Lemma status_passes_at (r : Response) (w : world) :
  ~ (400 <= status_code r < 600) ->
  raise_for_status r w = (Return tt, w).
Proof.
  intro H. unfold raise_for_status.
  destruct ((400 <=? status_code r) && (status_code r <? 500)) eqn:E1.
  - apply andb_true_iff in E1. rewrite Z.leb_le, Z.ltb_lt in E1. lia.
  - destruct ((500 <=? status_code r) && (status_code r <? 600)) eqn:E2.
    + apply andb_true_iff in E2. rewrite Z.leb_le, Z.ltb_lt in E2. lia.
    + reflexivity.
Qed.

Lemma fetch_json_transport_failure (title : string)
    (fields : option (list string)) (limit : option Z) (w : world) :
  transport_fails w (_build_url title fields limit) ->
  exists msg,
    get_search_results_json title fields limit w
    = (Return (JDict []), degraded w (_build_url title fields limit) msg).
Proof.
  unfold transport_fails. intro H.
  unfold get_search_results_json, session_get_M. unfold_monad. simpl.
  destruct (session_get (requested w) (_build_url title fields limit))
    as [[kind msg]|r] eqn:E.
  - exists msg. unfold degraded. simpl. rewrite <- app_assoc. reflexivity.
  - match goal with
    | |- context [raise_for_status r ?w1] =>
        destruct (status_raises_at r w1 H) as [msg Hr]; rewrite Hr
    end.
    exists msg. unfold degraded. simpl. rewrite <- app_assoc. reflexivity.
Qed.

Lemma fetch_raw_transport_failure (title : string) (w : world) :
  transport_fails w (_build_url title None None) ->
  exists msg,
    get_search_results title w
    = (Return [], degraded_raw w (_build_url title None None) msg).
Proof.
  unfold transport_fails. intro H.
  unfold get_search_results, session_get_M. unfold_monad. simpl.
  destruct (session_get (requested w) (_build_url title None None))
    as [[kind msg]|r] eqn:E.
  - exists msg. reflexivity.
  - match goal with
    | |- context [raise_for_status r ?w1] =>
        destruct (status_raises_at r w1 H) as [msg Hr]; rewrite Hr
    end.
    exists msg. reflexivity.
Qed.

Lemma fetch_json_success (title : string) (fields : option (list string))
    (limit : option Z) (w : world) (r : Response) (v : json) :
  session_get (requested w) (_build_url title fields limit) = inr r ->
  ~ (400 <= status_code r < 600) ->
  json_loads (content r) = inr v ->
  get_search_results_json title fields limit w
  = (Return v, fetched w (_build_url title fields limit)).
Proof.
  intros Hget Hstatus Hloads.
  unfold get_search_results_json, session_get_M, response_json.
  unfold_monad. simpl. rewrite Hget.
  rewrite (status_passes_at r _ Hstatus). rewrite Hloads. reflexivity.
Qed.

(** C2. When the transport fails for the URL of the call (the session
    raises, or the status is one [raise_for_status] raises on), then
    [get_search_results] returns the empty bytes and
    [get_search_results_json] returns the empty mapping; both return
    normally, having printed the error line. *)
Theorem transport_failure_degrades (title : string)
    (fields : option (list string)) (limit : option Z) (w : world)
    (Hraw : transport_fails w (_build_url title None None))
    (Hjson : transport_fails w (_build_url title fields limit)) :
  (exists msg,
     get_search_results title w
     = (Return [], degraded_raw w (_build_url title None None) msg))
  /\ (exists msg,
     get_search_results_json title fields limit w
     = (Return (JDict []), degraded w (_build_url title fields limit) msg)).
Proof.
  split.
  - now apply fetch_raw_transport_failure.
  - now apply fetch_json_transport_failure.
Qed.

Lemma fetch_json_decoder_raises (title : string)
    (fields : option (list string)) (limit : option Z) (w : world)
    (r : Response) (e : exn) :
  session_get (requested w) (_build_url title fields limit) = inr r ->
  ~ (400 <= status_code r < 600) ->
  json_loads (content r) = inl e ->
  get_search_results_json title fields limit w
  = if is_RequestException e
    then (Return (JDict []),
          degraded w (_build_url title fields limit) (exn_str e))
    else (Raise e, fetched w (_build_url title fields limit)).
Proof.
  intros Hget Hstatus Hloads.
  unfold get_search_results_json, session_get_M, response_json.
  unfold_monad. simpl. rewrite Hget.
  rewrite (status_passes_at r _ Hstatus). rewrite Hloads.
  destruct (is_RequestException e); [|reflexivity].
  unfold degraded. simpl. rewrite <- app_assoc. reflexivity.
Qed.

(** C6, as the code has it.  When the response arrives with a status that
    does not raise and [response.json()] raises on its body, the outcome
    follows the class of the exception.  A [RequestException], which is
    what a body that is not JSON text gives ([JSONDecodeError]), is handled
    like a transport failure: the error line is printed and the empty
    mapping returned.  Any other exception, such as the [RecursionError] of
    a body nested too deep, leaves [get_search_results_json] as it is,
    after the URL line only. *)
Theorem decode_failure_degrades_or_propagates (title : string)
    (fields : option (list string)) (limit : option Z) (w : world)
    (r : Response) (e : exn)
    (Hget : session_get (requested w) (_build_url title fields limit) = inr r)
    (Hstatus : ~ (400 <= status_code r < 600))
    (Hloads : json_loads (content r) = inl e) :
  (is_RequestException e = true ->
   get_search_results_json title fields limit w
   = (Return (JDict []),
      degraded w (_build_url title fields limit) (exn_str e)))
  /\ (is_RequestException e = false ->
      get_search_results_json title fields limit w
      = (Raise e, fetched w (_build_url title fields limit))).
Proof.
  rewrite (fetch_json_decoder_raises _ _ _ _ _ _ Hget Hstatus Hloads).
  split; intros ->; reflexivity.
Qed.

Lemma raise_for_status_cases (r : Response) (w : world) :
  raise_for_status r w = (Return tt, w)
  \/ exists msg, raise_for_status r w = (Raise (RequestException HTTPError msg), w).
Proof.
  unfold raise_for_status.
  destruct ((400 <=? status_code r) && (status_code r <? 500)).
  - right. eexists. reflexivity.
  - destruct ((500 <=? status_code r) && (status_code r <? 600)).
    + right. eexists. reflexivity.
    + left. reflexivity.
Qed.



(** ** The formatted first result *)

Lemma get_user_search_results_catches (title : string) (w : world) :
  get_user_search_results title w
  = match user_search_try title w with
    | (Return s, w') => (Return s, w')
    | (Raise e, w') =>
        (Return PROCESSING_ERROR,
         wrote w' ("Error processing results: " ++ exn_str e ++ LF))
    end.
Proof.
  unfold get_user_search_results, try_except, is_Exception.
  destruct (user_search_try title w) as [[s|e] w']; reflexivity.
Qed.


Lemma user_search_try_after_fetch (title : string) (w w' : world)
    (items : list (string * json)) :
  get_search_results_json title None None w = (Return (JDict items), w') ->
  user_search_try title w
  = match dict_get items "docs" with
    | None => (Return "No results found.", w')
    | Some docs =>
        if json_truthy docs then
          (book <- getitem_0 docs ;;
           title <- py_get book "title" (JStr "Unknown Title") ;;
           authors <- py_get book "author_name" (JList [JStr "Unknown Author"]) ;;
           author <- getitem_0 authors ;;
           ret ("Title: " ++ py_str title ++ LF ++ "Author: " ++ py_str author)) w'
        else (Return "No results found.", w')
    end.
Proof.
  intro H. unfold user_search_try. unfold bind at 1. rewrite H.
  unfold py_get at 1. unfold bind at 1. unfold ret at 1.
  destruct (dict_get items "docs") as [docs|] eqn:E; simpl.
  - destruct (json_truthy docs); simpl; [|reflexivity].
    unfold bind at 1. unfold getitem_key. rewrite E. reflexivity.
  - reflexivity.
Qed.

(** C5. When the decoded reply is a mapping whose docs entry is absent or
    an empty sequence, [get_user_search_results] returns exactly
    [No results found.]; when the transport fails, the fetch degrades to the
    empty mapping and the returned string is the same one. *)
Theorem no_results_when_docs_missing (title : string) (w : world) :
  (forall items w',
      get_search_results_json title None None w = (Return (JDict items), w') ->
      dict_get items "docs" = None \/ dict_get items "docs" = Some (JList []) ->
      get_user_search_results title w = (Return "No results found.", w'))
  /\ (transport_fails w (_build_url title None None) ->
      exists w',
        get_search_results_json title None None w = (Return (JDict []), w')
        /\ get_user_search_results title w = (Return "No results found.", w')).
Proof.
  assert (Hdocs : forall items w',
      get_search_results_json title None None w = (Return (JDict items), w') ->
      dict_get items "docs" = None \/ dict_get items "docs" = Some (JList []) ->
      get_user_search_results title w = (Return "No results found.", w')).
  { intros items w' Hfetch Hmissing.
    rewrite get_user_search_results_catches.
    rewrite (user_search_try_after_fetch _ _ _ _ Hfetch).
    destruct Hmissing as [-> | ->]; reflexivity. }
  split; [exact Hdocs|].
  intro Hfail.
  destruct (fetch_json_transport_failure title None None w Hfail) as [msg Hfetch].
  eexists. split; [exact Hfetch|].
  apply (Hdocs [] _ Hfetch). left. reflexivity.
Qed.

(** C4. When the decoded reply is a mapping whose docs entry is a sequence
    that starts with a document, the result is the two lines [Title: <t>]
    and [Author: <a>] built from that document alone: [<t>] is its title
    field, or [Unknown Title] when it has none; [<a>] is [Unknown Author]
    when it has no author_name field, and the first element of author_name
    when that is a sequence with a first element, whatever follows it. *)
Theorem first_document_formatted (title : string) (w w' : world)
    (items book : list (string * json)) (more_docs : list json)
    (Hfetch : get_search_results_json title None None w
              = (Return (JDict items), w'))
    (Hdocs : dict_get items "docs" = Some (JList (JDict book :: more_docs))) :
  let t := match dict_get book "title" with
           | Some v => py_str v
           | None => "Unknown Title"
           end in
  (dict_get book "author_name" = None ->
   get_user_search_results title w
   = (Return ("Title: " ++ t ++ LF ++ "Author: Unknown Author"), w'))
  /\ (forall first others,
        dict_get book "author_name" = Some (JList (first :: others)) ->
        get_user_search_results title w
        = (Return ("Title: " ++ t ++ LF ++ "Author: " ++ py_str first), w')).
Proof.
  intro t. subst t.
  split.
  - intro Hauthor. rewrite get_user_search_results_catches.
    rewrite (user_search_try_after_fetch _ _ _ _ Hfetch), Hdocs.
    simpl. unfold_monad. simpl. rewrite Hauthor.
    destruct (dict_get book "title"); reflexivity.
  - intros first others Hauthor. rewrite get_user_search_results_catches.
    rewrite (user_search_try_after_fetch _ _ _ _ Hfetch), Hdocs.
    simpl. unfold_monad. simpl. rewrite Hauthor.
    destruct (dict_get book "title"); reflexivity.
Qed.

(** C9. When the first document has an author_name field that is an empty
    sequence, indexing it raises [IndexError]; the operation prints the
    error line and returns the generic error string, not a line with
    [Unknown Author]. *)
Theorem empty_author_list_is_error (title : string) (w w' : world)
    (items book : list (string * json)) (more_docs : list json)
    (Hfetch : get_search_results_json title None None w
              = (Return (JDict items), w'))
    (Hdocs : dict_get items "docs" = Some (JList (JDict book :: more_docs)))
    (Hauthor : dict_get book "author_name" = Some (JList [])) :
  user_search_try title w = (Raise (IndexError "list index out of range"), w')
  /\ get_user_search_results title w
     = (Return "An error occurred while processing your request.",
        wrote w' ("Error processing results: list index out of range" ++ LF)).
Proof.
  assert (Htry : user_search_try title w
                 = (Raise (IndexError "list index out of range"), w')).
  { rewrite (user_search_try_after_fetch _ _ _ _ Hfetch), Hdocs.
    simpl. unfold_monad. simpl. rewrite Hauthor. reflexivity. }
  split; [exact Htry|].
  rewrite get_user_search_results_catches, Htry. reflexivity.
Qed.

(** ** The interactive loop *)

Lemma loop_body_quit (line : string) (w : world) :
  PyStr.lower line = "quit" -> loop_body line w = (Return Break, w).
Proof.
  intro H. unfold loop_body. rewrite H. reflexivity.
Qed.

Lemma loop_body_break_inv (line : string) (w w' : world) :
  loop_body line w = (Return Break, w') -> PyStr.lower line = "quit".
Proof.
  unfold loop_body.
  destruct (String.eqb (PyStr.lower line) "quit") eqn:E.
  - intros _. now apply String.eqb_eq.
  - destruct (negb (PyStr.truthy (PyStr.strip line))).
    + unfold_monad. simpl. discriminate.
    + unfold bind at 1.
      destruct (get_user_search_results line w) as [[s|e] w1];
        unfold_monad; simpl; discriminate.
Qed.

Lemma loop_body_blank (line : string) (w : world) :
  PyStr.all_space line = true ->
  loop_body line w
  = (Return Continue, wrote w ("Please enter a valid book title." ++ LF)).
Proof.
  intro H. unfold loop_body.
  destruct (String.eqb (PyStr.lower line) "quit") eqn:E.
  - apply String.eqb_eq, lower_is_quit, spells_quit_not_blank in E.
    congruence.
  - apply strip_empty_iff in H. rewrite H. reflexivity.
Qed.

Lemma main_loop_nil (w : world) :
  main_loop [] w = (Raise (EOFError "EOF when reading a line"), prompted w).
Proof.
  cbn [main_loop]. unfold bind, show_prompt, prompted, raise, write, write_err.
  destruct prompt_stream; reflexivity.
Qed.

Lemma main_loop_cons (line : string) (rest : list string) (w : world) :
  main_loop (line :: rest) w
  = match loop_body line (prompted w) with
    | (Return Break, w2) => (Return tt, w2)
    | (Return Continue, w2) => main_loop rest w2
    | (Raise e, w2) => (Raise e, w2)
    end.
Proof.
  cbn [main_loop]. unfold bind at 1.
  assert (Hprompt : show_prompt PROMPT w = (Return tt, prompted w)).
  { unfold show_prompt, prompted, write, write_err.
    destruct prompt_stream; reflexivity. }
  rewrite Hprompt. unfold bind at 1.
  destruct (loop_body line (prompted w)) as [[[|]|e] w2]; reflexivity.
Qed.

Lemma prompted_requested (w : world) : requested (prompted w) = requested w.
Proof. unfold prompted. destruct prompt_stream; reflexivity. Qed.

(** C8. One turn of the loop on any input line.  The turn ends the loop
    exactly when the line spells quit in some mix of cases, and then
    nothing is printed and nothing requested.  A line that is empty or all
    white space prints the validation message, requests nothing, and the
    loop goes on to prompt for the next line.  No line is both, and the
    quit test comes first: a line that spells quit never reaches the
    validation message.  The prompt shown before the line is read is on
    the stream of the prompt, whichever it is. *)
Theorem loop_quit_and_blank (line : string) (rest : list string) (w : world) :
  ((exists w', loop_body line w = (Return Break, w')) <-> spells_quit line)
  /\ (spells_quit line ->
      loop_body line w = (Return Break, w)
      /\ main_loop (line :: rest) w = (Return tt, prompted w)
      /\ PyStr.all_space line = false)
  /\ (PyStr.all_space line = true ->
      let w2 := wrote w ("Please enter a valid book title." ++ LF) in
      loop_body line w = (Return Continue, w2)
      /\ requested w2 = requested w
      /\ main_loop (line :: rest) w
         = main_loop rest
             (wrote (prompted w) ("Please enter a valid book title." ++ LF)))
  /\ (prompt_stream = Stdout -> prompted w = wrote w PROMPT).
Proof.
  split; [|split; [|split]].
  - split.
    + intros [w' H]. apply lower_is_quit. eapply loop_body_break_inv; eauto.
    + intro H. exists w. apply loop_body_quit. now apply lower_is_quit.
  - intro H. split; [|split].
    + apply loop_body_quit. now apply lower_is_quit.
    + rewrite main_loop_cons.
      rewrite (loop_body_quit line _ (proj2 (lower_is_quit line) H)).
      reflexivity.
    + now apply spells_quit_not_blank.
  - intros H w2. subst w2. split; [|split].
    + now apply loop_body_blank.
    + reflexivity.
    + rewrite main_loop_cons. rewrite (loop_body_blank line _ H). reflexivity.
  - intro H. unfold prompted. rewrite H. reflexivity.
Qed.

(** ** More on the query URL *)

Lemma has_char_append (c : ascii) (a b : string) :
  has_char c (a ++ b) = has_char c a || has_char c b.
Proof.
  induction a as [|d rest IH]; simpl; [reflexivity|].
  rewrite IH. now rewrite orb_assoc.
Qed.

Lemma replace_space_no_space (s : string) :
  has_char " " (PyStr.replace " " "+" s) = false.
Proof.
  induction s as [|c rest IH]; simpl; [reflexivity|].
  destruct (Ascii.eqb c " ") eqn:E; simpl; [exact IH|].
  now rewrite E, IH.
Qed.

Lemma replace_space_fixed (s : string) :
  has_char " " s = false -> PyStr.replace " " "+" s = s.
Proof.
  induction s as [|c rest IH]; simpl; [reflexivity|].
  intro H. apply orb_false_iff in H as [Hc Hrest].
  rewrite Hc. now rewrite IH.
Qed.

Lemma uint_no_space (d : Decimal.uint) :
  has_char " " (NilEmpty.string_of_uint d) = false.
Proof.
  induction d; simpl; auto.
Qed.

Lemma str_of_int_no_space (n : Z) :
  has_char " " (PyStr.str_of_int n) = false.
Proof.
  unfold PyStr.str_of_int, NilZero.string_of_int, NilZero.string_of_uint.
  destruct (Z.to_int n) as [d|d]; destruct d; simpl;
    try reflexivity; apply uint_no_space.
Qed.

Lemma join_no_space (fields : list string) :
  existsb (has_char " ") fields = false ->
  has_char " " (PyStr.join "," fields) = false.
Proof.
  unfold PyStr.join.
  induction fields as [|f rest IH]; simpl; [reflexivity|].
  intro H. apply orb_false_iff in H as [Hf Hrest].
  destruct rest as [|g rest']; [exact Hf|].
  rewrite has_char_append, Hf. simpl.
  apply IH. exact Hrest.
Qed.

Lemma append_cancel_l (p a b : string) : p ++ a = p ++ b -> a = b.
Proof.
  induction p as [|c rest IH]; simpl; [auto|].
  intro H. injection H as H. auto.
Qed.

Lemma append_length (a b : string) :
  String.length (a ++ b) = (String.length a + String.length b)%nat.
Proof.
  induction a as [|c rest IH]; simpl; [reflexivity|]. now rewrite IH.
Qed.

Lemma append_cancel_r (a b s : string) : a ++ s = b ++ s -> a = b.
Proof.
  intro H.
  assert (Hlen : String.length a = String.length b).
  { apply (f_equal String.length) in H. rewrite !append_length in H. lia. }
  revert b H Hlen.
  induction a as [|c rest IH]; intros [|d rest'] H Hlen;
    simpl in *; try discriminate; [reflexivity|].
  injection H as Hc H. injection Hlen as Hlen.
  f_equal; auto.
Qed.

(** X1. The URL holds no space when no field name holds one: every space
    of the title has become a plus sign, and the base address, the default
    fields and the decimal limit have none. *)
Theorem build_url_no_space (title : string) (fields : option (list string))
    (limit : option Z)
    (Hfields : match fields with
               | Some names => existsb (has_char " ") names = false
               | None => True
               end) :
  has_char " " (_build_url title fields limit) = false.
Proof.
  unfold _build_url, BASE_URL.
  assert (Hjoin : has_char " " (PyStr.join "," (fields_or fields DEFAULT_FIELDS))
                  = false).
  { destruct fields as [[|f rest]|]; try reflexivity.
    apply join_no_space. exact Hfields. }
  cbv zeta.
  rewrite !has_char_append, Hjoin, replace_space_no_space, str_of_int_no_space.
  reflexivity.
Qed.

(** X2. Two titles get the same URL, for the same fields and limit, exactly
    when they agree once spaces are turned into plus signs; so a title
    written with plus signs gets the URL of the title written with spaces. *)
Theorem build_url_same_iff (t1 t2 : string) (fields : option (list string))
    (limit : option Z) :
  (_build_url t1 fields limit = _build_url t2 fields limit
   <-> PyStr.replace " " "+" t1 = PyStr.replace " " "+" t2)
  /\ _build_url (PyStr.replace " " "+" t1) fields limit
     = _build_url t1 fields limit.
Proof.
  split.
  - split.
    + unfold _build_url. cbv zeta. intro H.
      apply append_cancel_l in H. apply append_cancel_l in H.
      apply append_cancel_r in H. exact H.
    + unfold _build_url. cbv zeta. intro H. now rewrite H.
  - unfold _build_url. cbv zeta.
    rewrite (replace_space_fixed _ (replace_space_no_space t1)). reflexivity.
Qed.

(** ** More on the fetch operations *)

Lemma fetch_json_world (title : string) (fields : option (list string))
    (limit : option Z) (w : world) :
  exists r tail,
    get_search_results_json title fields limit w
    = (r,
       mkWorld (stdout w
                ++ ("Request URL: " ++ _build_url title fields limit ++ LF)%string
                   :: tail)
               (stderr w)
               (requested w ++ [_build_url title fields limit]))
    /\ (List.length tail <= 1)%nat
    /\ match r with Return _ => True | Raise _ => tail = [] end.
Proof.
  unfold get_search_results_json, session_get_M, response_json.
  unfold_monad. simpl.
  destruct (session_get (requested w) (_build_url title fields limit))
    as [[kind msg]|r]; simpl.
  - eexists. eexists. rewrite <- app_assoc. simpl. split; [reflexivity|].
    simpl. split; [lia | exact I].
  - match goal with
    | |- context [raise_for_status r ?w1] =>
        destruct (raise_for_status_cases r w1) as [Hr | [msg Hr]]; rewrite Hr
    end; simpl.
    + destruct (json_loads (content r)) as [e|v]; simpl.
      * destruct (is_RequestException e); simpl.
        -- eexists. eexists. rewrite <- app_assoc. simpl.
           split; [reflexivity|]. simpl. split; [lia | exact I].
        -- exists (Raise e), []. split; [reflexivity|].
           simpl. split; [lia | reflexivity].
      * exists (Return v), []. split; [reflexivity|].
        simpl. split; [lia | exact I].
    + eexists. eexists. rewrite <- app_assoc. simpl.
      split; [reflexivity|]. simpl. split; [lia | exact I].
Qed.

Lemma fetch_raw_world (title : string) (w : world) :
  exists b tail,
    get_search_results title w
    = (Return b,
       mkWorld (stdout w ++ tail) (stderr w)
               (requested w ++ [_build_url title None None]))
    /\ (List.length tail <= 1)%nat.
Proof.
  unfold get_search_results, session_get_M. unfold_monad. simpl.
  destruct (session_get (requested w) (_build_url title None None))
    as [[kind msg]|r]; simpl.
  - eexists. eexists. split; [reflexivity|]. simpl. lia.
  - match goal with
    | |- context [raise_for_status r ?w1] =>
        destruct (raise_for_status_cases r w1) as [Hr | [msg Hr]]; rewrite Hr
    end; simpl.
    + exists (content r), []. rewrite app_nil_r. split; [|simpl; lia].
      destruct w; reflexivity.
    + eexists. eexists. split; [reflexivity|]. simpl. lia.
Qed.

(** X3. When the response arrives with a status outside 400..599, also a
    1xx or 3xx one, [get_search_results] returns its body byte for byte,
    prints nothing and has sent the one request. *)
Theorem get_search_results_success (title : string) (w : world) (r : Response)
    (Hget : session_get (requested w) (_build_url title None None) = inr r)
    (Hstatus : ~ (400 <= status_code r < 600)) :
  get_search_results title w
  = (Return (content r),
     mkWorld (stdout w) (stderr w)
             (requested w ++ [_build_url title None None])).
Proof.
  unfold get_search_results, session_get_M. unfold_monad. simpl.
  rewrite Hget. rewrite (status_passes_at r _ Hstatus). reflexivity.
Qed.

(** X4. When the response arrives with a status outside 400..599 and its
    body decodes, [get_search_results_json] returns the decoded value as it
    is, a mapping or not, having printed the URL line only. *)
Theorem get_search_results_json_success (title : string)
    (fields : option (list string)) (limit : option Z) (w : world)
    (r : Response) (v : json)
    (Hget : session_get (requested w) (_build_url title fields limit) = inr r)
    (Hstatus : ~ (400 <= status_code r < 600))
    (Hloads : json_loads (content r) = inr v) :
  get_search_results_json title fields limit w
  = (Return v, fetched w (_build_url title fields limit)).
Proof.
  eapply fetch_json_success; eassumption.
Qed.

(** ** More on the formatted first result *)

Lemma returns_only_ret {A} (P : A -> Prop) (a : A) :
  P a -> returns_only P (ret a).
Proof. intros H w. exists (Return a). split; [reflexivity | exact H]. Qed.

Lemma returns_only_raise {A} (P : A -> Prop) (e : exn) :
  returns_only P (raise e).
Proof. intros w. exists (Raise e). split; [reflexivity | exact I]. Qed.

Lemma returns_only_bind {A B} (Q : A -> Prop) (P : B -> Prop)
    (c : M A) (k : A -> M B) :
  returns_only Q c ->
  (forall a, Q a -> returns_only P (k a)) ->
  returns_only P (bind c k).
Proof.
  intros Hc Hk w. unfold bind.
  destruct (Hc w) as [[a|e] [-> Ha]].
  - exact (Hk a Ha w).
  - exists (Raise e). split; [reflexivity | exact I].
Qed.

Lemma py_get_pure (v : json) (key : string) (default : json) :
  returns_only (fun _ => True) (py_get v key default).
Proof.
  destruct v; simpl;
    solve [apply returns_only_raise | apply returns_only_ret; exact I].
Qed.

Lemma getitem_key_pure (v : json) (key : string) :
  returns_only (fun _ => True) (getitem_key v key).
Proof.
  destruct v; simpl; try apply returns_only_raise.
  destruct (dict_get items key);
    [apply returns_only_ret; exact I | apply returns_only_raise].
Qed.

Lemma getitem_0_pure (v : json) :
  returns_only (fun _ => True) (getitem_0 v).
Proof.
  destruct v as [| | | |s|items|items]; simpl; try apply returns_only_raise.
  - destruct s; [apply returns_only_raise | apply returns_only_ret; exact I].
  - destruct items; [apply returns_only_raise | apply returns_only_ret; exact I].
Qed.

Lemma user_search_try_shape (title : string) (w w' : world) (v : json) :
  get_search_results_json title None None w = (Return v, w') ->
  exists r,
    user_search_try title w = (r, w')
    /\ match r with
       | Return s =>
           s = "No results found."
           \/ exists t a, s = "Title: " ++ t ++ LF ++ "Author: " ++ a
       | Raise _ => True
       end.
Proof.
  intro H. unfold user_search_try. unfold bind at 1. rewrite H.
  clear H. revert w'.
  change (returns_only
            (fun s => s = "No results found."
                      \/ exists t a, s = "Title: " ++ t ++ LF ++ "Author: " ++ a)
            (docs <- py_get v "docs" JNull ;;
             if negb (json_truthy docs) then ret "No results found."
             else
               docs <- getitem_key v "docs" ;;
               book <- getitem_0 docs ;;
               title <- py_get book "title" (JStr "Unknown Title") ;;
               authors <- py_get book "author_name"
                            (JList [JStr "Unknown Author"]) ;;
               author <- getitem_0 authors ;;
               ret ("Title: " ++ py_str title ++ LF
                    ++ "Author: " ++ py_str author))).
  eapply returns_only_bind; [apply py_get_pure|]. intros docs _.
  destruct (negb (json_truthy docs)).
  - apply returns_only_ret. left. reflexivity.
  - eapply returns_only_bind; [apply getitem_key_pure|]. intros docs' _.
    eapply returns_only_bind; [apply getitem_0_pure|]. intros book _.
    eapply returns_only_bind; [apply py_get_pure|]. intros t _.
    eapply returns_only_bind; [apply py_get_pure|]. intros authors _.
    eapply returns_only_bind; [apply getitem_0_pure|]. intros author _.
    apply returns_only_ret. right. eauto.
Qed.

Lemma user_search_try_fetch_raises (title : string) (w w' : world) (e : exn) :
  get_search_results_json title None None w = (Raise e, w') ->
  user_search_try title w = (Raise e, w').
Proof.
  intro H. unfold user_search_try. unfold bind at 1. now rewrite H.
Qed.

Lemma user_search_world (title : string) (w : world) :
  exists s tail,
    get_user_search_results title w
    = (Return s,
       mkWorld (stdout w
                ++ ("Request URL: " ++ _build_url title None None ++ LF)%string
                   :: tail)
               (stderr w)
               (requested w ++ [_build_url title None None]))
    /\ (List.length tail <= 2)%nat
    /\ display_shape s.
Proof.
  destruct (fetch_json_world title None None w)
    as ([v|e0] & tail & Hfetch & Hlen & Htail).
  - destruct (user_search_try_shape _ _ _ _ Hfetch) as ([s|e] & Htry & Hshape).
    + exists s, tail. rewrite get_user_search_results_catches, Htry.
      split; [reflexivity|]. split; [lia|].
      destruct Hshape as [-> | Hs]; [left; reflexivity | right; right; exact Hs].
    + exists PROCESSING_ERROR,
        (tail ++ [("Error processing results: " ++ exn_str e ++ LF)%string])%list.
      rewrite get_user_search_results_catches, Htry.
      split; [|split].
      * unfold wrote. simpl. rewrite <- app_assoc. reflexivity.
      * rewrite length_app. simpl. lia.
      * right. left. reflexivity.
  - exists PROCESSING_ERROR,
      (tail ++ [("Error processing results: " ++ exn_str e0 ++ LF)%string])%list.
    rewrite get_user_search_results_catches.
    rewrite (user_search_try_fetch_raises _ _ _ _ Hfetch).
    split; [|split].
    + unfold wrote. simpl. rewrite <- app_assoc. reflexivity.
    + rewrite length_app. simpl. lia.
    + right. left. reflexivity.
Qed.


(** X6. The string [get_user_search_results] returns has one of three
    shapes, for every title and every reply: the no-result sentence, the
    generic error sentence, or a [Title:] line followed by an [Author:]
    line. *)
Theorem display_result_shapes (title : string) (w : world) :
  exists s w',
    get_user_search_results title w = (Return s, w') /\ display_shape s.
Proof.
  destruct (user_search_world title w) as (s & tail & H & _ & Hshape).
  eauto.
Qed.

(** X7. Standard output is only added to.  [get_search_results] adds at
    most one line; [get_user_search_results] adds the line with the request
    URL first and then at most two more. *)
Theorem output_is_appended (title : string) (w : world) :
  (exists tail,
      stdout (snd (get_search_results title w)) = (stdout w ++ tail)%list
      /\ (List.length tail <= 1)%nat)
  /\ (exists tail,
      stdout (snd (get_user_search_results title w))
      = (stdout w
         ++ ("Request URL: " ++ _build_url title None None ++ LF)%string
            :: tail)%list
      /\ (List.length tail <= 2)%nat).
Proof.
  split.
  - destruct (fetch_raw_world title w) as (b & tail & -> & Hlen).
    exists tail. split; [reflexivity | exact Hlen].
  - destruct (user_search_world title w) as (s & tail & -> & Hlen & _).
    exists tail. split; [reflexivity | exact Hlen].
Qed.

(** X8. When the body decodes to something that is not a mapping (a list,
    a string, a number, a boolean or null), the call of [get] on it raises
    [AttributeError], and [get_user_search_results] returns the generic
    error string after printing the error line. *)
Theorem non_mapping_reply_is_error (title : string) (w w' : world) (v : json)
    (Hfetch : get_search_results_json title None None w = (Return v, w'))
    (Hv : forall items, v <> JDict items) :
  get_user_search_results title w
  = (Return "An error occurred while processing your request.",
     wrote w' ("Error processing results: '" ++ type_name v
               ++ "' object has no attribute 'get'" ++ LF)).
Proof.
  rewrite get_user_search_results_catches.
  unfold user_search_try. unfold bind at 1. rewrite Hfetch.
  destruct v; try reflexivity.
  exfalso. eapply Hv. reflexivity.
Qed.

(** X9. Any falsy docs entry counts as no result: not only the empty
    sequence, but also null, false, zero, the empty string and the empty
    mapping give exactly [No results found.]. *)
Theorem falsy_docs_is_no_result (title : string) (w w' : world)
    (items : list (string * json)) (docs : json)
    (Hfetch : get_search_results_json title None None w
              = (Return (JDict items), w'))
    (Hdocs : dict_get items "docs" = Some docs)
    (Hfalsy : json_truthy docs = false) :
  get_user_search_results title w = (Return "No results found.", w').
Proof.
  rewrite get_user_search_results_catches.
  rewrite (user_search_try_after_fetch _ _ _ _ Hfetch), Hdocs, Hfalsy.
  reflexivity.
Qed.

(** X10. When the docs entry is truthy but is not a sequence that starts
    with a mapping (a number, true, a string, a non-empty mapping, or a
    sequence whose first element is not a mapping), the extraction raises
    and the result is the generic error string. *)
Theorem malformed_docs_is_error (title : string) (w w' : world)
    (items : list (string * json)) (docs : json)
    (Hfetch : get_search_results_json title None None w
              = (Return (JDict items), w'))
    (Hdocs : dict_get items "docs" = Some docs)
    (Htruthy : json_truthy docs = true)
    (Hshape : forall book more, docs <> JList (JDict book :: more)) :
  exists e,
    user_search_try title w = (Raise e, w')
    /\ get_user_search_results title w
       = (Return "An error occurred while processing your request.",
          wrote w' ("Error processing results: " ++ exn_str e ++ LF)).
Proof.
  assert (Htry : exists e, user_search_try title w = (Raise e, w')).
  { rewrite (user_search_try_after_fetch _ _ _ _ Hfetch), Hdocs, Htruthy.
    destruct docs as [| | | |s|elems|elems]; simpl in Htruthy;
      try discriminate Htruthy; try (eexists; reflexivity).
    - destruct s; [discriminate Htruthy | eexists; reflexivity].
    - destruct elems as [|first more]; [discriminate Htruthy|].
      destruct first; try (eexists; reflexivity).
      exfalso. eapply Hshape. reflexivity. }
  destruct Htry as [e Htry]. exists e. split; [exact Htry|].
  rewrite get_user_search_results_catches, Htry. reflexivity.
Qed.

(** X11. When author_name of the first document is a non-empty string
    instead of a sequence, the author shown is its first character only. *)
Theorem author_string_first_character (title : string) (w w' : world)
    (items book : list (string * json)) (more_docs : list json)
    (c : ascii) (rest : string)
    (Hfetch : get_search_results_json title None None w
              = (Return (JDict items), w'))
    (Hdocs : dict_get items "docs" = Some (JList (JDict book :: more_docs)))
    (Hauthor : dict_get book "author_name" = Some (JStr (String c rest))) :
  get_user_search_results title w
  = (Return ("Title: "
             ++ match dict_get book "title" with
                | Some v => py_str v
                | None => "Unknown Title"
                end
             ++ LF ++ "Author: " ++ String c ""), w').
Proof.
  rewrite get_user_search_results_catches.
  rewrite (user_search_try_after_fetch _ _ _ _ Hfetch), Hdocs.
  simpl. unfold_monad. simpl. rewrite Hauthor.
  destruct (dict_get book "title"); reflexivity.
Qed.

(** X12. When author_name of the first document is present but has no
    first element to take (null, a number, a boolean, a mapping, the empty
    string or the empty sequence), the result is the generic error string:
    the default author is used only when the field is absent. *)
Theorem author_without_first_is_error (title : string) (w w' : world)
    (items book : list (string * json)) (more_docs : list json) (a : json)
    (Hfetch : get_search_results_json title None None w
              = (Return (JDict items), w'))
    (Hdocs : dict_get items "docs" = Some (JList (JDict book :: more_docs)))
    (Hauthor : dict_get book "author_name" = Some a)
    (Hlist : forall x xs, a <> JList (x :: xs))
    (Hstr : forall c s, a <> JStr (String c s)) :
  exists e,
    user_search_try title w = (Raise e, w')
    /\ get_user_search_results title w
       = (Return "An error occurred while processing your request.",
          wrote w' ("Error processing results: " ++ exn_str e ++ LF)).
Proof.
  assert (Htry : exists e, user_search_try title w = (Raise e, w')).
  { rewrite (user_search_try_after_fetch _ _ _ _ Hfetch), Hdocs.
    simpl. unfold_monad. simpl. rewrite Hauthor.
    destruct a as [| | | |s|elems|elems]; simpl; try (eexists; reflexivity).
    - destruct s; [eexists; reflexivity|].
      exfalso. eapply Hstr. reflexivity.
    - destruct elems; [eexists; reflexivity|].
      exfalso. eapply Hlist. reflexivity. }
  destruct Htry as [e Htry]. exists e. split; [exact Htry|].
  rewrite get_user_search_results_catches, Htry. reflexivity.
Qed.

(** ** More on the interactive loop *)

Lemma is_quit_line_spells (line : string) :
  is_quit_line line = true <-> spells_quit line.
Proof.
  unfold is_quit_line. rewrite String.eqb_eq. apply lower_is_quit.
Qed.

Lemma loop_body_search (line : string) (w : world) :
  is_quit_line line = false ->
  PyStr.all_space line = false ->
  loop_body line w
  = match get_user_search_results line w with
    | (Return s, w1) =>
        (Return Continue,
         wrote (wrote w1 (LF ++ "Search Result:" ++ LF)) (s ++ LF))
    | (Raise e, w1) => (Raise e, w1)
    end.
Proof.
  unfold is_quit_line. intros Hquit Hblank. unfold loop_body. rewrite Hquit.
  destruct (PyStr.truthy (PyStr.strip line)) eqn:E.
  - simpl. unfold bind at 1.
    destruct (get_user_search_results line w) as [[s|e] w1]; reflexivity.
  - apply strip_empty_iff in E. congruence.
Qed.

Lemma loop_body_continues (line : string) (w : world) :
  is_quit_line line = false ->
  exists w2,
    loop_body line w = (Return Continue, w2)
    /\ requested w2 = (requested w ++ searched [line])%list.
Proof.
  intro Hquit. unfold searched. simpl.
  destruct (PyStr.all_space line) eqn:Hblank; simpl.
  - rewrite (loop_body_blank line w Hblank). eexists. split; [reflexivity|].
    simpl. now rewrite app_nil_r.
  - rewrite (loop_body_search line w Hquit Hblank).
    destruct (user_search_world line w) as (s & tail & -> & _).
    eexists. split; reflexivity.
Qed.

Lemma searched_cons (line : string) (lines : list string) :
  searched (line :: lines) = (searched [line] ++ searched lines)%list.
Proof.
  unfold searched. simpl.
  destruct (negb (PyStr.all_space line)); reflexivity.
Qed.

Lemma main_loop_run (stdin : list string) (w : world) :
  exists w',
    main_loop stdin w
    = (if existsb is_quit_line stdin then Return tt
       else Raise (EOFError "EOF when reading a line"), w')
    /\ requested w' = (requested w ++ searched (consumed stdin))%list.
Proof.
  revert w. induction stdin as [|line rest IH]; intro w.
  - rewrite main_loop_nil. eexists. split; [reflexivity|].
    rewrite prompted_requested. simpl. now rewrite app_nil_r.
  - rewrite main_loop_cons. cbn [existsb consumed].
    destruct (is_quit_line line) eqn:Hquit.
    + rewrite (loop_body_quit line _ (proj1 (String.eqb_eq _ _) Hquit)).
      eexists. split; [reflexivity|].
      rewrite prompted_requested. simpl. now rewrite app_nil_r.
    + destruct (loop_body_continues line (prompted w) Hquit)
        as (w2 & -> & Hreq).
      rewrite prompted_requested in Hreq.
      destruct (IH w2) as (w' & -> & Hreq').
      exists w'. split; [reflexivity|].
      rewrite Hreq', Hreq, (searched_cons line (consumed rest)).
      now rewrite <- app_assoc.
Qed.

(** X13. A turn on a line that neither spells quit nor is blank performs
    exactly one search, for the URL of that line, prints the header and the
    display string the search returned, and goes on; the search cannot make
    the turn raise. *)
Theorem loop_search_turn (line : string) (w : world)
    (Hquit : ~ spells_quit line)
    (Hblank : PyStr.all_space line = false) :
  exists s w1,
    get_user_search_results line w = (Return s, w1)
    /\ display_shape s
    /\ requested w1 = (requested w ++ [_build_url line None None])%list
    /\ loop_body line w
       = (Return Continue,
          wrote (wrote w1 (LF ++ "Search Result:" ++ LF)) (s ++ LF)).
Proof.
  assert (Hq : is_quit_line line = false).
  { destruct (is_quit_line line) eqn:E; [|reflexivity].
    apply is_quit_line_spells in E. contradiction. }
  rewrite (loop_body_search line w Hq Hblank).
  destruct (user_search_world line w) as (s & tail & -> & _ & Hshape).
  eexists. eexists. repeat split. exact Hshape.
Qed.

(** X14. The program ends in one of two ways only.  If some input line
    passes the quit test, it ends normally; otherwise it ends with
    [EOFError] once the input is exhausted.  No failure of a search ends
    it. *)
Theorem main_ends_by_quit_or_eof (stdin : list string) (w : world) :
  fst (main stdin w)
  = if existsb is_quit_line stdin then Return tt
    else Raise (EOFError "EOF when reading a line").
Proof.
  unfold main. unfold_monad. simpl.
  match goal with
  | |- context [main_loop stdin ?w1] =>
      destruct (main_loop_run stdin w1) as (w' & -> & _)
  end.
  reflexivity.
Qed.

(** X15. The program requests one URL for each line that is not blank
    among the lines before the first quit line, in the order of the lines,
    and nothing else. *)
Theorem main_requests (stdin : list string) (w : world) :
  requested (snd (main stdin w))
  = (requested w ++ searched (consumed stdin))%list.
Proof.
  unfold main. unfold_monad. simpl.
  match goal with
  | |- context [main_loop stdin ?w1] =>
      destruct (main_loop_run stdin w1) as (w' & -> & Hreq)
  end.
  simpl. exact Hreq.
Qed.

Lemma main_loop_stops_at_quit (before after : list string) (q : string)
    (w : world) :
  is_quit_line q = true ->
  main_loop (before ++ q :: after) w = main_loop (before ++ [q]) w.
Proof.
  intro Hq. revert w. induction before as [|line rest IH]; intro w.
  - cbn [app]. rewrite !main_loop_cons.
    rewrite (loop_body_quit q _ (proj1 (String.eqb_eq _ _) Hq)). reflexivity.
  - cbn [app]. rewrite !main_loop_cons.
    destruct (loop_body line (prompted w)) as [[[|]|e] w2]; try reflexivity.
    apply IH.
Qed.

(** X16. Whatever follows the first line that passes the quit test is
    never read: the run is the run on the input cut after that line. *)
Theorem main_ignores_after_quit (before after : list string) (q : string)
    (w : world) (Hq : is_quit_line q = true) :
  main (before ++ q :: after) w = main (before ++ [q]) w.
Proof.
  unfold main. unfold bind.
  destruct (print "Open Library Book Search" w) as [[[]|e] w1]; [|reflexivity].
  destruct (print "-----------------------" w1) as [[[]|e] w2]; [|reflexivity].
  now apply main_loop_stops_at_quit.
Qed.

Lemma loop_body_appends (line : string) (w : world) :
  exists r w2 tail,
    loop_body line w = (r, w2)
    /\ stdout w2 = (stdout w ++ tail)%list
    /\ stderr w2 = stderr w.
Proof.
  destruct (is_quit_line line) eqn:Hquit.
  - rewrite (loop_body_quit line w (proj1 (String.eqb_eq _ _) Hquit)).
    exists (Return Break), w, [].
    split; [reflexivity|]. split; [now rewrite app_nil_r | reflexivity].
  - destruct (PyStr.all_space line) eqn:Hblank.
    + rewrite (loop_body_blank line w Hblank).
      eexists. eexists. eexists. split; [reflexivity|]. split; reflexivity.
    + rewrite (loop_body_search line w Hquit Hblank).
      destruct (user_search_world line w) as (s & tail & -> & _).
      eexists. eexists. eexists. split; [reflexivity|].
      split; [|reflexivity].
      simpl. rewrite <- !app_assoc. reflexivity.
Qed.

Lemma main_loop_appends_stdout (stdin : list string) (w : world) :
  prompt_stream = Stdout ->
  exists out,
    stdout (snd (main_loop stdin w)) = (stdout w ++ PROMPT :: out)%list
    /\ stderr (snd (main_loop stdin w)) = stderr w.
Proof.
  intro Hstream.
  assert (Hp : forall w0, prompted w0 = wrote w0 PROMPT).
  { intro w0. unfold prompted. now rewrite Hstream. }
  revert w. induction stdin as [|line rest IH]; intro w.
  - rewrite main_loop_nil, Hp. exists []. split; reflexivity.
  - rewrite main_loop_cons, Hp.
    destruct (loop_body_appends line (wrote w PROMPT))
      as (r & w2 & tail & -> & Hout & Herr).
    cbn [wrote stdout stderr] in Hout, Herr.
    destruct r as [[|]|e].
    + exists tail. cbn [snd]. rewrite Hout, Herr, <- app_assoc.
      split; reflexivity.
    + destruct (IH w2) as (out & -> & ->).
      exists (tail ++ PROMPT :: out)%list.
      rewrite Hout, Herr, <- !app_assoc. split; reflexivity.
    + exists tail. cbn [snd]. rewrite Hout, Herr, <- app_assoc.
      split; reflexivity.
Qed.

Lemma main_loop_appends_stderr (stdin : list string) (w : world) :
  prompt_stream = Stderr ->
  exists out err,
    stdout (snd (main_loop stdin w)) = (stdout w ++ out)%list
    /\ stderr (snd (main_loop stdin w)) = (stderr w ++ PROMPT :: err)%list.
Proof.
  intro Hstream.
  assert (Hp : forall w0,
             prompted w0
             = mkWorld (stdout w0) (stderr w0 ++ [PROMPT]) (requested w0)).
  { intro w0. unfold prompted. now rewrite Hstream. }
  revert w. induction stdin as [|line rest IH]; intro w.
  - rewrite main_loop_nil, Hp. exists [], [].
    split; [now rewrite app_nil_r | reflexivity].
  - rewrite main_loop_cons, Hp.
    destruct (loop_body_appends line
                (mkWorld (stdout w) (stderr w ++ [PROMPT]) (requested w)))
      as (r & w2 & tail & -> & Hout & Herr).
    cbn [stdout stderr] in Hout, Herr.
    destruct r as [[|]|e].
    + exists tail, []. cbn [snd]. rewrite Hout, Herr. split; reflexivity.
    + destruct (IH w2) as (out & err & -> & ->).
      exists (tail ++ out)%list, (PROMPT :: err).
      rewrite Hout, Herr, <- !app_assoc. split; reflexivity.
    + exists tail, []. cbn [snd]. rewrite Hout, Herr. split; reflexivity.
Qed.

(** X17. Whatever the input, also none at all, the program first adds the
    two banner lines to standard output and shows the prompt at least
    once.  When the prompt goes to standard output it comes right after
    the banner and standard error is left as it was; when it goes to
    standard error it is the first thing added there, and standard output
    holds the banner and what the turns print.  Nothing already written is
    removed. *)
Theorem main_banner_then_prompt (stdin : list string) (w : world) :
  match prompt_stream with
  | Stdout =>
      exists out,
        stdout (snd (main stdin w))
        = (stdout w
           ++ ("Open Library Book Search" ++ LF)%string
              :: ("-----------------------" ++ LF)%string
              :: PROMPT :: out)%list
        /\ stderr (snd (main stdin w)) = stderr w
  | Stderr =>
      exists out err,
        stdout (snd (main stdin w))
        = (stdout w
           ++ ("Open Library Book Search" ++ LF)%string
              :: ("-----------------------" ++ LF)%string
              :: out)%list
        /\ stderr (snd (main stdin w)) = (stderr w ++ PROMPT :: err)%list
  end.
Proof.
  unfold main. unfold_monad. simpl.
  destruct prompt_stream eqn:Hstream.
  - match goal with
    | |- context [main_loop stdin ?w1] =>
        destruct (main_loop_appends_stdout stdin w1 Hstream) as (out & -> & ->)
    end.
    exists out. simpl. rewrite <- !app_assoc. split; reflexivity.
  - match goal with
    | |- context [main_loop stdin ?w1] =>
        destruct (main_loop_appends_stderr stdin w1 Hstream)
          as (out & err & -> & ->)
    end.
    exists out, err. simpl. rewrite <- !app_assoc. split; reflexivity.
Qed.

End Client.

(** ** The theorems at concrete inputs *)

Lemma build_url_exact_witness :
  exists t n : string,
    _build_url "the hobbit" (Some ["key"; "title"]) (Some 5)
    = "https://openlibrary.org/search.json?title=" ++ t
      ++ "&fields=" ++ String.concat "," ["key"; "title"]
      ++ "&limit=" ++ n
    /\ String.length t = String.length "the hobbit"
    /\ (forall i, String.get i t
                  = option_map plus_for_space (String.get i "the hobbit"))
    /\ decimal_value n = Some 5
    /\ canonical_decimal n = true.
Proof.
  apply (build_url_exact "the hobbit" ["key"; "title"] 5).
  - discriminate.
  - lia.
Defined.

Lemma transport_failure_degrades_witness :
  (exists msg,
     get_search_results (net_const not_found_response) "dune" world0
     = (Return [], degraded_raw world0 dune_url msg))
  /\ (exists msg,
     get_search_results_json (net_const not_found_response)
       (loads_const dune_reply) "dune" None None world0
     = (Return (JDict []), degraded world0 dune_url msg)).
Proof.
  apply (transport_failure_degrades (net_const not_found_response)
           (loads_const dune_reply) "dune" None None world0).
  - unfold transport_fails, net_const, not_found_response. simpl. lia.
  - unfold transport_fails, net_const, not_found_response. simpl. lia.
Defined.

Lemma decode_failure_degrades_or_propagates_witness :
  get_search_results_json (net_const ok_response) loads_reject
    "dune" None None world0
  = (Return (JDict []),
     degraded world0 dune_url "Expecting value: line 1 column 1 (char 0)")
  /\ get_search_results_json (net_const deep_response) loads_unterminated
       "dune" None None world0
     = (Raise (RecursionError "maximum recursion depth exceeded"),
        fetched world0 dune_url).
Proof.
  split.
  - apply (proj1 (decode_failure_degrades_or_propagates
                    (net_const ok_response) loads_reject
                    "dune" None None world0 ok_response
                    (RequestException JSONDecodeError
                       "Expecting value: line 1 column 1 (char 0)")
                    eq_refl
                    ltac:(unfold ok_response; simpl; lia)
                    eq_refl)).
    reflexivity.
  - apply (proj2 (decode_failure_degrades_or_propagates
                    (net_const deep_response) loads_unterminated
                    "dune" None None world0 deep_response
                    (RecursionError "maximum recursion depth exceeded")
                    eq_refl
                    ltac:(unfold deep_response; cbn [status_code]; lia)
                    ltac:(vm_compute; reflexivity))).
    reflexivity.
Defined.

(** The body of 100000 opening brackets is not JSON text, the response
    that carries it has the status 200, and yet the call does not return
    the empty mapping: [RecursionError] leaves [get_search_results_json]. *)
Lemma malformed_body_can_raise :
  status_code deep_response = 200
  /\ (exists e, loads_unterminated (content deep_response) = inl e)
  /\ forall w',
       get_search_results_json (net_const deep_response) loads_unterminated
         "dune" None None world0
       <> (Return (JDict []), w').
Proof.
  split; [reflexivity|]. split.
  - eexists. vm_compute. reflexivity.
  - intros w' H.
    rewrite (fetch_json_decoder_raises (net_const deep_response)
               loads_unterminated "dune" None None world0 deep_response
               (RecursionError "maximum recursion depth exceeded")
               eq_refl
               ltac:(unfold deep_response; cbn [status_code]; lia)
               ltac:(vm_compute; reflexivity)) in H.
    discriminate H.
Qed.



Lemma no_results_when_docs_missing_witness :
  get_user_search_results (net_const ok_response)
    (loads_const (JDict [("docs", JList [])])) repr_none "dune" world0
  = (Return "No results found.", fetched world0 dune_url)
  /\ exists w',
      get_search_results_json net_down (loads_const dune_reply)
        "dune" None None world0 = (Return (JDict []), w')
      /\ get_user_search_results net_down (loads_const dune_reply) repr_none
           "dune" world0 = (Return "No results found.", w').
Proof.
  split.
  - apply (proj1 (no_results_when_docs_missing (net_const ok_response)
             (loads_const (JDict [("docs", JList [])])) repr_none
             "dune" world0) [("docs", JList [])]).
    + reflexivity.
    + right. reflexivity.
  - apply (proj2 (no_results_when_docs_missing net_down
             (loads_const dune_reply) repr_none "dune" world0)).
    simpl. exact I.
Defined.

Lemma first_document_formatted_witness :
  get_user_search_results (net_const ok_response) (loads_const dune_reply)
    repr_none "dune" world0
  = (Return ("Title: Dune" ++ LF ++ "Author: Frank Herbert"),
     fetched world0 dune_url).
Proof.
  apply (proj2 (first_document_formatted (net_const ok_response)
           (loads_const dune_reply) repr_none "dune" world0
           (fetched world0 dune_url)
           [("docs",
             JList [JDict [("title", JStr "Dune");
                           ("author_name",
                            JList [JStr "Frank Herbert"; JStr "Other"])]])]
           [("title", JStr "Dune");
            ("author_name", JList [JStr "Frank Herbert"; JStr "Other"])]
           [] eq_refl eq_refl)
         (JStr "Frank Herbert") [JStr "Other"]).
  reflexivity.
Defined.

Lemma empty_author_list_is_error_witness :
  get_user_search_results (net_const ok_response)
    (loads_const no_author_list_reply) repr_none "dune" world0
  = (Return "An error occurred while processing your request.",
     wrote (fetched world0 dune_url)
       ("Error processing results: list index out of range" ++ LF)).
Proof.
  apply (proj2 (empty_author_list_is_error (net_const ok_response)
           (loads_const no_author_list_reply) repr_none "dune" world0
           (fetched world0 dune_url)
           [("docs",
             JList [JDict [("title", JStr "Dune"); ("author_name", JList [])]])]
           [("title", JStr "Dune"); ("author_name", JList [])]
           [] eq_refl eq_refl eq_refl)).
Defined.

Lemma loop_quit_and_blank_witness :
  loop_body net_down loads_reject repr_none "QuIt" world0
  = (Return Break, world0)
  /\ loop_body net_down loads_reject repr_none "   " world0
     = (Return Continue,
        wrote world0 ("Please enter a valid book title." ++ LF)).
Proof.
  split.
  - apply (proj1 (proj1 (proj2 (loop_quit_and_blank net_down loads_reject
                                  repr_none Stdout "QuIt" [] world0))
                    ltac:(exists "Q"%char, "u"%char, "I"%char, "t"%char;
                          repeat split; auto))).
  - apply (proj1 (proj1 (proj2 (proj2 (loop_quit_and_blank net_down
                                         loads_reject repr_none Stderr
                                         "   " [] world0))) eq_refl)).
Defined.

(** A whole session away from a terminal: a blank line, a search, then
    quit; the line after quit is never read. *)
Example main_session :
  main (net_const ok_response) (loads_const dune_reply) repr_none Stdout
    ["  "; "dune"; "QUIT"; "never read"] world0
  = (Return tt,
     mkWorld
       ["Open Library Book Search" ++ LF;
        "-----------------------" ++ LF;
        PROMPT;
        "Please enter a valid book title." ++ LF;
        PROMPT;
        "Request URL: " ++ dune_url ++ LF;
        LF ++ "Search Result:" ++ LF;
        "Title: Dune" ++ LF ++ "Author: Frank Herbert" ++ LF;
        PROMPT]
       []
       [dune_url]).
Proof. reflexivity. Qed.

(** The same session at a terminal: the prompts are on standard error. *)
Example main_session_terminal :
  main (net_const ok_response) (loads_const dune_reply) repr_none Stderr
    ["  "; "dune"; "QUIT"; "never read"] world0
  = (Return tt,
     mkWorld
       ["Open Library Book Search" ++ LF;
        "-----------------------" ++ LF;
        "Please enter a valid book title." ++ LF;
        "Request URL: " ++ dune_url ++ LF;
        LF ++ "Search Result:" ++ LF;
        "Title: Dune" ++ LF ++ "Author: Frank Herbert" ++ LF]
       [PROMPT; PROMPT; PROMPT]
       [dune_url]).
Proof. reflexivity. Qed.

(** With the network down the search still prints a result, and the loop
    ends on [EOFError] once standard input is exhausted. *)
Example main_session_offline :
  main net_down (loads_const dune_reply) repr_none Stdout ["dune"] world0
  = (Raise (EOFError "EOF when reading a line"),
     mkWorld
       ["Open Library Book Search" ++ LF;
        "-----------------------" ++ LF;
        PROMPT;
        "Request URL: " ++ dune_url ++ LF;
        "Error making request: Connection refused" ++ LF;
        LF ++ "Search Result:" ++ LF;
        "No results found." ++ LF;
        PROMPT]
       []
       [dune_url]).
Proof. reflexivity. Qed.

(** ** Further theorems at concrete inputs *)

Lemma build_url_no_space_witness :
  has_char " " (_build_url "the lord of the rings" (Some ["key"; "title"])
                  (Some 3)) = false.
Proof.
  apply (build_url_no_space "the lord of the rings" (Some ["key"; "title"])
           (Some 3)).
  reflexivity.
Defined.

Lemma get_search_results_success_witness :
  get_search_results (net_const not_modified_response) "dune" world0
  = (Return [x44; x75; x6e; x65]%byte, mkWorld [] [] [dune_url]).
Proof.
  apply (get_search_results_success (net_const not_modified_response)
           "dune" world0 not_modified_response).
  - reflexivity.
  - unfold not_modified_response. simpl. lia.
Defined.

Lemma get_search_results_json_success_witness :
  get_search_results_json (net_const ok_response) (loads_const (JList []))
    "dune" None None world0
  = (Return (JList []), fetched world0 dune_url).
Proof.
  apply (get_search_results_json_success (net_const ok_response)
           (loads_const (JList [])) "dune" None None world0 ok_response).
  - reflexivity.
  - unfold ok_response. simpl. lia.
  - reflexivity.
Defined.

Lemma non_mapping_reply_is_error_witness :
  get_user_search_results (net_const ok_response) (loads_const (JInt 7))
    repr_none "dune" world0
  = (Return "An error occurred while processing your request.",
     wrote (fetched world0 dune_url)
       ("Error processing results: 'int' object has no attribute 'get'" ++ LF)).
Proof.
  apply (non_mapping_reply_is_error (net_const ok_response)
           (loads_const (JInt 7)) repr_none "dune" world0
           (fetched world0 dune_url) (JInt 7)).
  - reflexivity.
  - intros items H. discriminate H.
Defined.

Lemma falsy_docs_is_no_result_witness :
  get_user_search_results (net_const ok_response) (loads_const null_docs_reply)
    repr_none "dune" world0
  = (Return "No results found.", fetched world0 dune_url).
Proof.
  apply (falsy_docs_is_no_result (net_const ok_response)
           (loads_const null_docs_reply) repr_none "dune" world0
           (fetched world0 dune_url) [("docs", JNull)] JNull).
  - reflexivity.
  - reflexivity.
  - reflexivity.
Defined.

Lemma malformed_docs_is_error_witness :
  exists e,
    user_search_try (net_const ok_response) (loads_const number_docs_reply)
      repr_none "dune" world0
    = (Raise e, fetched world0 dune_url)
    /\ get_user_search_results (net_const ok_response)
         (loads_const number_docs_reply) repr_none "dune" world0
       = (Return "An error occurred while processing your request.",
          wrote (fetched world0 dune_url)
            ("Error processing results: " ++ exn_str e ++ LF)).
Proof.
  apply (malformed_docs_is_error (net_const ok_response)
           (loads_const number_docs_reply) repr_none "dune" world0
           (fetched world0 dune_url) [("docs", JInt 5)] (JInt 5)).
  - reflexivity.
  - reflexivity.
  - reflexivity.
  - intros book more H. discriminate H.
Defined.

Lemma author_string_first_character_witness :
  get_user_search_results (net_const ok_response)
    (loads_const string_author_reply) repr_none "dune" world0
  = (Return ("Title: Dune" ++ LF ++ "Author: F"), fetched world0 dune_url).
Proof.
  apply (author_string_first_character (net_const ok_response)
           (loads_const string_author_reply) repr_none "dune" world0
           (fetched world0 dune_url)
           [("docs",
             JList [JDict [("title", JStr "Dune");
                           ("author_name", JStr "Frank Herbert")]])]
           [("title", JStr "Dune"); ("author_name", JStr "Frank Herbert")]
           [] "F"%char "rank Herbert").
  - reflexivity.
  - reflexivity.
  - reflexivity.
Defined.

Lemma author_without_first_is_error_witness :
  exists e,
    user_search_try (net_const ok_response) (loads_const null_author_reply)
      repr_none "dune" world0
    = (Raise e, fetched world0 dune_url)
    /\ get_user_search_results (net_const ok_response)
         (loads_const null_author_reply) repr_none "dune" world0
       = (Return "An error occurred while processing your request.",
          wrote (fetched world0 dune_url)
            ("Error processing results: " ++ exn_str e ++ LF)).
Proof.
  apply (author_without_first_is_error (net_const ok_response)
           (loads_const null_author_reply) repr_none "dune" world0
           (fetched world0 dune_url)
           [("docs",
             JList [JDict [("title", JStr "Dune"); ("author_name", JNull)]])]
           [("title", JStr "Dune"); ("author_name", JNull)] [] JNull).
  - reflexivity.
  - reflexivity.
  - reflexivity.
  - intros x xs H. discriminate H.
  - intros c s H. discriminate H.
Defined.

Lemma loop_search_turn_witness :
  exists s w1,
    get_user_search_results (net_const ok_response) (loads_const dune_reply)
      repr_none "dune" world0 = (Return s, w1)
    /\ display_shape s
    /\ requested w1 = (requested world0 ++ [_build_url "dune" None None])%list
    /\ loop_body (net_const ok_response) (loads_const dune_reply) repr_none
         "dune" world0
       = (Return Continue,
          wrote (wrote w1 (LF ++ "Search Result:" ++ LF)) (s ++ LF)).
Proof.
  apply (loop_search_turn (net_const ok_response) (loads_const dune_reply)
           repr_none "dune" world0).
  - intros (c1 & c2 & c3 & c4 & H & [Hc | Hc] & _);
      injection H as H1 _; rewrite Hc in H1; discriminate H1.
  - reflexivity.
Defined.

Lemma main_ignores_after_quit_witness :
  main (net_const ok_response) (loads_const dune_reply) repr_none Stdout
    (["dune"] ++ "Quit" :: ["emma"; "ulysses"]) world0
  = main (net_const ok_response) (loads_const dune_reply) repr_none Stdout
      (["dune"] ++ ["Quit"]) world0.
Proof.
  apply (main_ignores_after_quit (net_const ok_response)
           (loads_const dune_reply) repr_none Stdout ["dune"]
           ["emma"; "ulysses"] "Quit" world0).
  reflexivity.
Defined.
